(** * seller-apis: stock and price reconciliation for two marketplaces

    A shallow embedding of [seller.py] (Ozon) and [market.py] (Yandex
    Market) together with the properties of their reconciliation
    transform, price normaliser, batcher and listing loops.

    Python strings are embedded as Rocq [string]s holding the UTF-8
    encoding of the text.  [split] on a full stop, the class [[^0-9]]
    and the comparisons with [">10"] and ["1"] only distinguish ASCII
    characters, and no byte of a multi-byte UTF-8 sequence is an ASCII
    byte, so the byte-wise reading agrees with the code-point-wise one.
    [int] is another matter: it reads the digits and the white space of
    every script and refuses a number that is too long, both as the
    interpreter at hand has them; see [Interpreter] below. *)

From Stdlib Require Import String Ascii ZArith List Bool Lia Permutation.
From Stdlib Require Import Decimal DecimalString DecimalZ.
Import ListNotations.

Open Scope string_scope.
Open Scope Z_scope.
Open Scope list_scope.

(** ** Results, exceptions and values *)

(** Exceptions raised by the built-ins used in the source. *)
Inductive exn : Set :=
| AttributeError
| TypeError
| ValueError
| IndexError
| HTTPError.

(** A computation either returns or raises. *)
Inductive result (A : Type) : Type :=
| Ok (a : A)
| Raise (e : exn).
Arguments Ok {A} a.
Arguments Raise {A} e.

Definition bind {A B : Type} (m : result A) (k : A -> result B) : result B :=
  match m with
  | Ok a => k a
  | Raise e => Raise e
  end.

(** A spreadsheet cell or a dictionary entry: [None], a [str] or an
    [int].  (Floating-point cells are outside the embedding.)  An
    integer cell is a number of the spreadsheet, a double with no
    fraction: it has 309 digits at most, fewer than any limit on the
    digits of a conversion, so that [str] of it raises nothing. *)
Inductive value : Set :=
| VNone
| VStr (s : string)
| VInt (z : Z).

Notation "x <- m ;; k" := (bind m (fun x => k))
  (at level 61, m at next level, right associativity).

(** ** The interpreter

    Two things that [int] does with a text are not fixed by the
    language but by the interpreter that runs the scripts: the limit on
    the number of digits it converts, and the reading of characters
    outside ASCII, which rests on the tables of its Unicode version.
    Both are parameters of the embedding.

    [int_max_str_digits] stands for [sys.get_int_max_str_digits()]:
    [None] when conversions are not limited (a limit of 0, or an
    interpreter that has none), [Some k] for a limit of [640 + k]
    digits, 640 being the least limit an interpreter accepts.
    [int_of_unicode s] is what [int(s)] returns for a text [s] that has
    a character outside ASCII, [None] when it raises [ValueError]. *)
Class Interpreter : Type := {
  int_max_str_digits : option nat;
  int_of_unicode : string -> option Z
}.

(** ** The fragment of Python the two scripts rely on *)

Module Py.

(** [str(v)]. *)
Definition str (v : value) : string :=
  match v with
  | VNone => "None"
  | VStr s => s
  | VInt z => NilZero.string_of_int (Z.to_int z)
  end.

(** A [dict] with string keys, and [d.get(k)]. *)
Definition dict : Set := list (string * value).

Fixpoint get (d : dict) (k : string) : value :=
  match d with
  | [] => VNone
  | (k', v) :: d' => if String.eqb k' k then v else get d' k
  end.

(** [x in l] and [l.remove(x)] on a list of strings.  [remove] deletes
    the first occurrence and raises [ValueError] when there is none. *)
Definition contains (x : string) (l : list string) : bool :=
  existsb (fun y => String.eqb y x) l.

Fixpoint remove (x : string) (l : list string) : result (list string) :=
  match l with
  | [] => Raise ValueError
  | y :: l' =>
      if String.eqb y x then Ok l'
      else bind (remove x l') (fun r => Ok (y :: r))
  end.

(** [l[i]] for a non-negative index. *)
Definition getitem {A} (l : list A) (i : nat) : result A :=
  match nth_error l i with
  | Some a => Ok a
  | None => Raise IndexError
  end.

(** [len(l)]. *)
Definition len {A} (l : list A) : Z := Z.of_nat (List.length l).

(** *** Characters *)

Definition is_digit (c : ascii) : bool :=
  let n := nat_of_ascii c in (48 <=? n)%nat && (n <=? 57)%nat.

Definition digit_value (c : ascii) : Z := Z.of_nat (nat_of_ascii c) - 48.

(** White space as [int] strips it from an ASCII text: tab to carriage
    return, and the blank. *)
Definition is_space (c : ascii) : bool :=
  let n := nat_of_ascii c in
  ((9 <=? n)%nat && (n <=? 13)%nat) || (n =? 32)%nat.

(** No character of the text lies outside ASCII. *)
Fixpoint is_ascii (s : string) : bool :=
  match s with
  | EmptyString => true
  | String c s' => (nat_of_ascii c <? 128)%nat && is_ascii s'
  end.

(** *** [s.split(sep)] for a one-character separator

    The result is never empty: a string without the separator is
    returned whole, as the only field. *)
Fixpoint split (sep : ascii) (s : string) : list string :=
  match s with
  | EmptyString => [EmptyString]
  | String c s' =>
      if Ascii.eqb c sep then EmptyString :: split sep s'
      else match split sep s' with
           | field :: fields => String c field :: fields
           | [] => [String c EmptyString]
           end
  end.

(** *** [re.sub("[^0-9]", "", s)]

    Every character outside the class [0-9] is a match of length one
    and is replaced by the empty string. *)
Fixpoint re_sub_non_digit (s : string) : string :=
  match s with
  | EmptyString => EmptyString
  | String c s' =>
      if is_digit c then String c (re_sub_non_digit s')
      else re_sub_non_digit s'
  end.

(** *** [int(s)] on a string, base ten

    In an ASCII text surrounding white space is dropped, one sign is
    allowed, and the digits may be grouped by single underscores. *)
Fixpoint lstrip (s : string) : string :=
  match s with
  | EmptyString => EmptyString
  | String c s' => if is_space c then lstrip s' else s
  end.

Fixpoint rstrip (s : string) : string :=
  match s with
  | EmptyString => EmptyString
  | String c s' =>
      match rstrip s' with
      | EmptyString => if is_space c then EmptyString else String c EmptyString
      | r => String c r
      end
  end.

Definition strip (s : string) : string := rstrip (lstrip s).

(** [digits acc after_digit s]: the value of the digit string [s]
    continued from [acc]; [after_digit] tells whether the previous
    character was a digit, which an underscore and the end require. *)
Fixpoint digits (acc : Z) (after_digit : bool) (s : string) : option Z :=
  match s with
  | EmptyString => if after_digit then Some acc else None
  | String c s' =>
      if is_digit c then digits (10 * acc + digit_value c) true s'
      else if Ascii.eqb c "_" then
             if after_digit then digits acc false s' else None
           else None
  end.

Definition int_of_ascii (s : string) : option Z :=
  match strip s with
  | EmptyString => None
  | String c s' =>
      if Ascii.eqb c "-" then option_map Z.opp (digits 0 false s')
      else if Ascii.eqb c "+" then digits 0 false s'
      else digits 0 false (String c s')
  end.

(** The digits of a text, which the limit of the interpreter is set
    against; the sign, the underscores and the white space do not
    count. *)
Fixpoint count_digits (s : string) : nat :=
  match s with
  | EmptyString => O
  | String c s' => ((if is_digit c then 1 else 0) + count_digits s')%nat
  end.

(** The text has more digits than a limit allows, the limit given as
    [int_max_str_digits] gives it. *)
Definition exceeds (limit : option nat) (s : string) : bool :=
  match limit with
  | None => false
  | Some k => (640 + k <? count_digits s)%nat
  end.

Section WithInterpreter.

Context {interp : Interpreter}.

(** The ASCII text has more digits than the interpreter converts. *)
Definition over_limit (s : string) : bool :=
  exceeds int_max_str_digits s.

(** The integer that [int] reads a text as, the limit on the digits of
    an ASCII text left aside. *)
Definition int_of_string (s : string) : option Z :=
  if is_ascii s then int_of_ascii s else int_of_unicode s.

(** [int(v)].  On a text, whatever goes wrong is a [ValueError]. *)
Definition int (v : value) : result Z :=
  match v with
  | VNone => Raise TypeError
  | VInt z => Ok z
  | VStr s =>
      if is_ascii s && over_limit s then Raise ValueError
      else match int_of_string s with
           | Some z => Ok z
           | None => Raise ValueError
           end
  end.

End WithInterpreter.

(** *** [range(start, stop, step)], as the list of its elements

    The number of elements is computed as the interpreter does; a
    zero step raises [ValueError]. *)
Definition range_length (start stop step : Z) : Z :=
  if 0 <? step then
    if start <? stop then (stop - 1 - start) / step + 1 else 0
  else
    if stop <? start then (start - 1 - stop) / (- step) + 1 else 0.

Definition range (start stop step : Z) : result (list Z) :=
  if step =? 0 then Raise ValueError
  else Ok (map (fun k => start + Z.of_nat k * step)
               (seq 0 (Z.to_nat (range_length start stop step)))).

(** *** [l[i:j]]

    Negative bounds count from the end and every bound is clamped to
    the list. *)
Definition clamp {A} (l : list A) (i : Z) : Z :=
  if i <? 0 then Z.max 0 (i + len l) else Z.min i (len l).

Definition slice {A} (l : list A) (i j : Z) : list A :=
  let a := clamp l i in
  let b := clamp l j in
  firstn (Z.to_nat (b - a)) (skipn (Z.to_nat a) l).

(** [list(filter(p, l))] for a predicate that may raise. *)
Fixpoint filter {A} (p : A -> result bool) (l : list A) : result (list A) :=
  match l with
  | [] => Ok []
  | a :: l' =>
      bind (p a) (fun keep =>
      bind (filter p l') (fun r =>
      Ok (if keep then a :: r else r)))
  end.

End Py.

(** ** CPython 3.11

    The interpreter that the examples are evaluated with: the limit of
    4300 digits that CPython starts with, and the characters of
    Unicode 14.0.  [int] turns a text outside ASCII into an ASCII one,
    character by character, and reads that one: a character below 127
    stays, white space becomes a blank, a decimal digit of any script
    becomes its ASCII digit, and at the first character that is none of
    these the text ends with a question mark, which no number has. *)
Module CPython.

(** The six low bits of a continuation byte of UTF-8. *)
Definition continuation (c : ascii) : option N :=
  let n := N_of_ascii c in
  if ((128 <=? n) && (n <? 192))%N then Some (n - 128)%N else None.

(** The code point [cp], when it is one that the encoding of that
    length is for. *)
Definition code_point (least cp : N) : option N :=
  if ((least <=? cp) && (cp <? 0x110000)
      && negb ((0xD800 <=? cp) && (cp <? 0xE000)))%N
  then Some cp else None.

(** The code points of a text; a text that is not UTF-8 is the
    encoding of no Python string and has none. *)
Fixpoint decode (s : string) : option (list N) :=
  match s with
  | EmptyString => Some []
  | String c0 s1 =>
      let n := N_of_ascii c0 in
      if (n <? 128)%N then option_map (cons n) (decode s1)
      else if (n <? 192)%N then None
      else if (n <? 224)%N then
        match s1 with
        | String c1 s2 =>
            match continuation c1 with
            | Some a =>
                match code_point 0x80%N ((n - 192) * 64 + a)%N, decode s2 with
                | Some cp, Some l => Some (cp :: l)
                | _, _ => None
                end
            | None => None
            end
        | _ => None
        end
      else if (n <? 240)%N then
        match s1 with
        | String c1 (String c2 s3) =>
            match continuation c1, continuation c2 with
            | Some a, Some b =>
                match code_point 0x800%N (((n - 224) * 64 + a) * 64 + b)%N,
                      decode s3 with
                | Some cp, Some l => Some (cp :: l)
                | _, _ => None
                end
            | _, _ => None
            end
        | _ => None
        end
      else if (n <? 248)%N then
        match s1 with
        | String c1 (String c2 (String c3 s4)) =>
            match continuation c1, continuation c2, continuation c3 with
            | Some a, Some b, Some c =>
                match code_point 0x10000%N
                        ((((n - 240) * 64 + a) * 64 + b) * 64 + c)%N,
                      decode s4 with
                | Some cp, Some l => Some (cp :: l)
                | _, _ => None
                end
            | _, _, _ => None
            end
        | _ => None
        end
      else None
  end.

(** [Py_UNICODE_ISSPACE]: the characters of bidirectional type WS, B
    or S and those of category Zs. *)
Definition is_space (ch : N) : bool :=
  (((0x9 <=? ch) && (ch <=? 0xD)) || ((0x1C <=? ch) && (ch <=? 0x20))
   || ((0x2000 <=? ch) && (ch <=? 0x200A))
   || existsb (N.eqb ch)
        [0x85; 0xA0; 0x1680; 0x2028; 0x2029; 0x202F; 0x205F; 0x3000])%N.

(** The zero of every run of decimal digits outside ASCII; the nine
    characters after it are the digits one to nine. *)
Definition zeros : list N :=
  [0x660; 0x6f0; 0x7c0; 0x966; 0x9e6; 0xa66; 0xae6; 0xb66; 0xbe6;
   0xc66; 0xce6; 0xd66; 0xde6; 0xe50; 0xed0; 0xf20; 0x1040; 0x1090;
   0x17e0; 0x1810; 0x1946; 0x19d0; 0x1a80; 0x1a90; 0x1b50; 0x1bb0;
   0x1c40; 0x1c50; 0xa620; 0xa8d0; 0xa900; 0xa9d0; 0xa9f0; 0xaa50;
   0xabf0; 0xff10; 0x104a0; 0x10d30; 0x11066; 0x110f0; 0x11136;
   0x111d0; 0x112f0; 0x11450; 0x114d0; 0x11650; 0x116c0; 0x11730;
   0x118e0; 0x11950; 0x11c50; 0x11d50; 0x11da0; 0x16a60; 0x16ac0;
   0x16b50; 0x1d7ce; 0x1d7d8; 0x1d7e2; 0x1d7ec; 0x1d7f6; 0x1e140;
   0x1e2f0; 0x1e950; 0x1fbf0]%N.

(** [Py_UNICODE_TODECIMAL] outside ASCII. *)
Definition to_decimal (ch : N) : option N :=
  match find (fun first => (first <=? ch) && (ch <? first + 10))%N zeros with
  | Some first => Some (ch - first)%N
  | None => None
  end.

(** [_PyUnicode_TransformDecimalAndSpaceToASCII]. *)
Fixpoint transform (l : list N) : string :=
  match l with
  | [] => EmptyString
  | ch :: l' =>
      if (ch <? 127)%N then String (ascii_of_N ch) (transform l')
      else if is_space ch then String " " (transform l')
      else match to_decimal ch with
           | Some d => String (ascii_of_N (48 + d)) (transform l')
           | None => "?"
           end
  end.

(** [PyLong_FromUnicodeObject], base ten, on a text outside ASCII. *)
Definition long_from_unicode (limit : option nat) (s : string) : option Z :=
  match decode s with
  | Some l =>
      if Py.exceeds limit (transform l) then None
      else Py.int_of_ascii (transform l)
  | None => None
  end.

Definition max_str_digits : option nat := Some 3660%nat.

Definition interpreter : Interpreter :=
  {| int_max_str_digits := max_str_digits;
     int_of_unicode := long_from_unicode max_str_digits |}.

End CPython.

(** ** Effects

    The scripts talk to the marketplaces over HTTP.  A request is a
    transition of the outside world [W] that yields a response; the
    wrappers of the source call [raise_for_status] on it and hand the
    decoded body on.

    A response has a status and a body of the shape that the
    marketplace documents.  A request that ends without a response (no
    connection, a timeout), for which [requests] raises an exception of
    its own, and a response with a good status whose body is not of
    that shape, are outside the embedding: what is proved below of a
    call that raises is proved of a refused request. *)

Record response (B : Type) : Type := { status_ok : bool; body : B }.
Arguments status_ok {B} r.
Arguments body {B} r.

Definition raise_for_status {B W : Type} (r : response B * W) : result B * W :=
  let (resp, w) := r in
  if status_ok resp then (Ok (body resp), w) else (Raise HTTPError, w).

(** [for batch in batches: submit(batch)]: the calls are made in order
    and the first one that raises ends the loop. *)
Fixpoint for_each {A B W : Type} (submit : A -> W -> result B * W)
  (batches : list A) (w : W) : result unit * W :=
  match batches with
  | [] => (Ok tt, w)
  | batch :: rest =>
      match submit batch w with
      | (Ok _, w') => for_each submit rest w'
      | (Raise e, w') => (Raise e, w')
      end
  end.

(** ** seller.py *)

Module Seller.

(** An entry of [items] in the answer of [/v2/product/list]; only its
    [offer_id] is read. *)
Record product : Set := { offer_id : string }.

(** The [result] object of one answer of [/v2/product/list]. *)
Record product_page : Set := {
  items : list product;
  total : Z;
  page_last_id : string
}.

(** [{"offer_id": ..., "stock": ...}] *)
Record stock_record : Set := { stock_offer_id : string; stock : Z }.

(** The dictionary built by [create_prices]. *)
Record price_record : Set := {
  auto_action_enabled : string;
  currency_code : string;
  price_offer_id : string;
  old_price : string;
  price : string
}.

Definition price_conversion (price : value) : result string :=
  match price with
  | VStr s =>
      integral <- Py.getitem (Py.split "." s) 0 ;;
      Ok (Py.re_sub_non_digit integral)
  | VNone | VInt _ => Raise AttributeError
  end.

(** [divide] is a generator; every caller consumes it at once with
    [list(...)], and that list is what is embedded.  The error of a zero
    step comes from [range], when the first chunk is asked for. *)
Definition divide {A : Type} (lst : list A) (n : Z) : result (list (list A)) :=
  indices <- Py.range 0 (Py.len lst) n ;;
  Ok (map (fun i => Py.slice lst i (i + n)) indices).

Section Interpreted.

Context {interp : Interpreter}.

(** The first loop of [create_stocks].  It returns the stocks built so
    far together with [offer_ids] as the removals have left it. *)
Fixpoint create_stocks_matched (watch_remnants : list Py.dict)
  (offer_ids : list string) (stocks : list stock_record)
  : result (list stock_record * list string) :=
  match watch_remnants with
  | [] => Ok (stocks, offer_ids)
  | watch :: rest =>
      if Py.contains (Py.str (Py.get watch "Код")) offer_ids then
        let count := Py.str (Py.get watch "Количество") in
        stock <- (if String.eqb count ">10" then Ok 100
                  else if String.eqb count "1" then Ok 0
                  else Py.int (Py.get watch "Количество")) ;;
        let stocks := stocks ++ [{| stock_offer_id := Py.str (Py.get watch "Код");
                                    stock := stock |}] in
        offer_ids <- Py.remove (Py.str (Py.get watch "Код")) offer_ids ;;
        create_stocks_matched rest offer_ids stocks
      else create_stocks_matched rest offer_ids stocks
  end.

(** The second loop: one zero record for every id still listed. *)
Fixpoint create_stocks_missing (offer_ids : list string)
  (stocks : list stock_record) : list stock_record :=
  match offer_ids with
  | [] => stocks
  | offer_id :: rest =>
      create_stocks_missing rest
        (stocks ++ [{| stock_offer_id := offer_id; stock := 0 |}])
  end.

(** [create_stocks] returns [stocks]; the second component is the list
    object [offer_ids] as the call leaves it, since the caller keeps a
    reference to it. *)
Definition create_stocks (watch_remnants : list Py.dict)
  (offer_ids : list string) : result (list stock_record * list string) :=
  r <- create_stocks_matched watch_remnants offer_ids [] ;;
  let (stocks, offer_ids) := r in
  Ok (create_stocks_missing offer_ids stocks, offer_ids).

Fixpoint create_prices_from (watch_remnants : list Py.dict)
  (offer_ids : list string) (prices : list price_record)
  : result (list price_record) :=
  match watch_remnants with
  | [] => Ok prices
  | watch :: rest =>
      if Py.contains (Py.str (Py.get watch "Код")) offer_ids then
        converted <- price_conversion (Py.get watch "Цена") ;;
        let price := {| auto_action_enabled := "UNKNOWN";
                        currency_code := "RUB";
                        price_offer_id := Py.str (Py.get watch "Код");
                        old_price := "0";
                        price := converted |} in
        create_prices_from rest offer_ids (prices ++ [price])
      else create_prices_from rest offer_ids prices
  end.

Definition create_prices (watch_remnants : list Py.dict)
  (offer_ids : list string) : result (list price_record) :=
  create_prices_from watch_remnants offer_ids [].

Section Transport.

(** The marketplace behind the three endpoints of [seller.py]. *)
Variable W : Type.
Variable post_product_list :
  forall (client_id seller_token last_id : string), W -> response product_page * W.
Variable post_import_stocks :
  forall (client_id seller_token : string), list stock_record -> W -> response unit * W.

Definition get_product_list (last_id client_id seller_token : string) (w : W)
    : result product_page * W :=
  raise_for_status (post_product_list client_id seller_token last_id w).

Definition update_stocks (stocks : list stock_record)
  (client_id seller_token : string) (w : W) : result unit * W :=
  raise_for_status (post_import_stocks client_id seller_token stocks w).

(** The [while True] loop of [get_offer_ids], run for at most [fuel]
    requests; [None] means that the loop has not left by then. *)
Fixpoint get_offer_ids_pages (fuel : nat) (client_id seller_token : string)
  (last_id : string) (product_list : list product) (w : W)
  : option (result (list product) * W) :=
  match fuel with
  | O => None
  | S fuel' =>
      match get_product_list last_id client_id seller_token w with
      | (Raise e, w') => Some (Raise e, w')
      | (Ok some_prod, w') =>
          let product_list := product_list ++ items some_prod in
          if total some_prod =? Py.len product_list
          then Some (Ok product_list, w')
          else get_offer_ids_pages fuel' client_id seller_token
                 (page_last_id some_prod) product_list w'
      end
  end.

Definition get_offer_ids (fuel : nat) (client_id seller_token : string) (w : W)
  : option (result (list string) * W) :=
  match get_offer_ids_pages fuel client_id seller_token "" [] w with
  | None => None
  | Some (Raise e, w') => Some (Raise e, w')
  | Some (Ok product_list, w') => Some (Ok (map offer_id product_list), w')
  end.

(** [upload_stocks] is declared [async] but contains no [await]: its
    body runs as plain sequential code. *)
Definition upload_stocks (fuel : nat) (watch_remnants : list Py.dict)
  (client_id seller_token : string) (w : W)
  : option (result (list stock_record * list stock_record) * W) :=
  match get_offer_ids fuel client_id seller_token w with
  | None => None
  | Some (Raise e, w1) => Some (Raise e, w1)
  | Some (Ok offer_ids, w1) =>
      match (r <- create_stocks watch_remnants offer_ids ;;
             batches <- divide (fst r) 100 ;;
             Ok (fst r, batches)) with
      | Raise e => Some (Raise e, w1)
      | Ok (stocks, batches) =>
          match for_each (fun some_stock =>
                            update_stocks some_stock client_id seller_token)
                         batches w1 with
          | (Raise e, w2) => Some (Raise e, w2)
          | (Ok _, w2) =>
              let not_empty := List.filter (fun s => negb (stock s =? 0)) stocks in
              Some (Ok (not_empty, stocks), w2)
          end
      end
  end.

(** The price endpoint and the source of the local stock file.
    [download_stock] fetches and parses the spreadsheet; in the
    embedding it is a transition of the world that yields the rows or
    raises. *)
Variable post_import_prices :
  forall (client_id seller_token : string), list price_record -> W -> response unit * W.
Variable download_stock : W -> result (list Py.dict) * W.

Definition update_price (prices : list price_record)
  (client_id seller_token : string) (w : W) : result unit * W :=
  raise_for_status (post_import_prices client_id seller_token prices w).

(** [upload_prices], like [upload_stocks], has no [await] in its
    body. *)
Definition upload_prices (fuel : nat) (watch_remnants : list Py.dict)
  (client_id seller_token : string) (w : W)
  : option (result (list price_record) * W) :=
  match get_offer_ids fuel client_id seller_token w with
  | None => None
  | Some (Raise e, w1) => Some (Raise e, w1)
  | Some (Ok offer_ids, w1) =>
      match (prices <- create_prices watch_remnants offer_ids ;;
             batches <- divide prices 1000 ;;
             Ok (prices, batches)) with
      | Raise e => Some (Raise e, w1)
      | Ok (prices, batches) =>
          match for_each (fun some_price =>
                            update_price some_price client_id seller_token)
                         batches w1 with
          | (Raise e, w2) => Some (Raise e, w2)
          | (Ok _, w2) => Some (Ok prices, w2)
          end
      end
  end.

(** The [try] block of [main].  [create_prices] receives the list
    object [offer_ids] as [create_stocks] has left it. *)
Definition main_try (fuel : nat) (client_id seller_token : string) (w : W)
  : option (result unit * W) :=
  match get_offer_ids fuel client_id seller_token w with
  | None => None
  | Some (Raise e, w1) => Some (Raise e, w1)
  | Some (Ok offer_ids, w1) =>
      match download_stock w1 with
      | (Raise e, w2) => Some (Raise e, w2)
      | (Ok watch_remnants, w2) =>
          match (r <- create_stocks watch_remnants offer_ids ;;
                 batches <- divide (fst r) 100 ;;
                 Ok (snd r, batches)) with
          | Raise e => Some (Raise e, w2)
          | Ok (offer_ids, batches) =>
              match for_each (fun some_stock =>
                                update_stocks some_stock client_id seller_token)
                             batches w2 with
              | (Raise e, w3) => Some (Raise e, w3)
              | (Ok _, w3) =>
                  match (prices <- create_prices watch_remnants offer_ids ;;
                         divide prices 900) with
                  | Raise e => Some (Raise e, w3)
                  | Ok batches =>
                      Some (for_each
                              (fun some_price =>
                                 update_price some_price client_id seller_token)
                              batches w3)
                  end
              end
          end
      end
  end.

(** [main] with the two credentials read from the environment.  Every
    exception of the [try] block is caught and printed; the result
    tells which one was, if any.  (The embedding has no time-out and
    no connection error, so the handler reached is the last one.) *)
Definition main (fuel : nat) (client_id seller_token : string) (w : W)
  : option (option exn * W) :=
  match main_try fuel client_id seller_token w with
  | None => None
  | Some (Ok _, w') => Some (None, w')
  | Some (Raise error, w') => Some (Some error, w')
  end.

End Transport.

End Interpreted.

End Seller.

(** ** market.py *)

Module Market.

(** [{"offer": {"shopSku": ...}}], an entry of [offerMappingEntries]. *)
Record offer : Set := { shopSku : string }.
Record entry : Set := { entry_offer : offer }.

(** [{"nextPageToken": ...}]; the token may be missing. *)
Record paging_info : Set := { nextPageToken : option string }.

(** The [result] object of one answer of [offer-mapping-entries]. *)
Record product_page : Set := {
  offerMappingEntries : list entry;
  paging : paging_info
}.

(** [{"count": ..., "type": "FIT", "updatedAt": ...}] *)
Record item : Set := { count : Z; item_type : string; updatedAt : string }.

(** [{"sku": ..., "warehouseId": ..., "items": [...]}] *)
Record stock_record : Set := {
  sku : string;
  warehouseId : string;
  stock_items : list item
}.

(** [{"id": ..., "price": {"value": ..., "currencyId": "RUR"}}] *)
Record price_value : Set := { value_ : Z; currencyId : string }.
Record price_record : Set := { id : string; price : price_value }.

Section Interpreted.

Context {interp : Interpreter}.

(** [create_stocks] reads the clock once; [date] is that reading,
    already formatted. *)
Fixpoint create_stocks_matched (date : string) (watch_remnants : list Py.dict)
  (offer_ids : list string) (warehouse_id : string) (stocks : list stock_record)
  : result (list stock_record * list string) :=
  match watch_remnants with
  | [] => Ok (stocks, offer_ids)
  | watch :: rest =>
      if Py.contains (Py.str (Py.get watch "Код")) offer_ids then
        let count := Py.str (Py.get watch "Количество") in
        stock <- (if String.eqb count ">10" then Ok 100
                  else if String.eqb count "1" then Ok 0
                  else Py.int (Py.get watch "Количество")) ;;
        let stocks :=
          stocks ++ [{| sku := Py.str (Py.get watch "Код");
                        warehouseId := warehouse_id;
                        stock_items := [{| count := stock;
                                           item_type := "FIT";
                                           updatedAt := date |}] |}] in
        offer_ids <- Py.remove (Py.str (Py.get watch "Код")) offer_ids ;;
        create_stocks_matched date rest offer_ids warehouse_id stocks
      else create_stocks_matched date rest offer_ids warehouse_id stocks
  end.

Fixpoint create_stocks_missing (date : string) (offer_ids : list string)
  (warehouse_id : string) (stocks : list stock_record) : list stock_record :=
  match offer_ids with
  | [] => stocks
  | offer_id :: rest =>
      create_stocks_missing date rest warehouse_id
        (stocks ++ [{| sku := offer_id;
                       warehouseId := warehouse_id;
                       stock_items := [{| count := 0;
                                          item_type := "FIT";
                                          updatedAt := date |}] |}])
  end.

Definition create_stocks (date : string) (watch_remnants : list Py.dict)
  (offer_ids : list string) (warehouse_id : string)
  : result (list stock_record * list string) :=
  r <- create_stocks_matched date watch_remnants offer_ids warehouse_id [] ;;
  let (stocks, offer_ids) := r in
  Ok (create_stocks_missing date offer_ids warehouse_id stocks, offer_ids).

Fixpoint create_prices_from (watch_remnants : list Py.dict)
  (offer_ids : list string) (prices : list price_record)
  : result (list price_record) :=
  match watch_remnants with
  | [] => Ok prices
  | watch :: rest =>
      if Py.contains (Py.str (Py.get watch "Код")) offer_ids then
        converted <- Seller.price_conversion (Py.get watch "Цена") ;;
        value <- Py.int (VStr converted) ;;
        let price := {| id := Py.str (Py.get watch "Код");
                        price := {| value_ := value; currencyId := "RUR" |} |} in
        create_prices_from rest offer_ids (prices ++ [price])
      else create_prices_from rest offer_ids prices
  end.

Definition create_prices (watch_remnants : list Py.dict)
  (offer_ids : list string) : result (list price_record) :=
  create_prices_from watch_remnants offer_ids [].

(** [not page] for a page token: a missing and an empty token are
    both false. *)
Definition falsy (page : option string) : bool :=
  match page with
  | None => true
  | Some token => String.eqb token ""
  end.

(** The token sent with the next request.  The requests library leaves
    a parameter whose value is [None] out; the loop never gets there,
    as it stops on such a token. *)
Definition token_text (page : option string) : string :=
  match page with
  | None => ""
  | Some token => token
  end.

Section Transport.

(** The marketplace behind the endpoints of [market.py]. *)
Variable W : Type.
Variable get_offer_mapping_entries :
  forall (campaign_id access_token page : string), W -> response product_page * W.
Variable put_offers_stocks :
  forall (campaign_id access_token : string), list stock_record -> W -> response unit * W.

Definition get_product_list (page campaign_id access_token : string) (w : W)
  : result product_page * W :=
  raise_for_status (get_offer_mapping_entries campaign_id access_token page w).

Definition update_stocks (stocks : list stock_record)
  (campaign_id access_token : string) (w : W) : result unit * W :=
  raise_for_status (put_offers_stocks campaign_id access_token stocks w).

(** The [while True] loop of [get_offer_ids], run for at most [fuel]
    requests; [None] means that the loop has not left by then. *)
Fixpoint get_offer_ids_pages (fuel : nat) (campaign_id market_token : string)
  (page : string) (product_list : list entry) (w : W)
  : option (result (list entry) * W) :=
  match fuel with
  | O => None
  | S fuel' =>
      match get_product_list page campaign_id market_token w with
      | (Raise e, w') => Some (Raise e, w')
      | (Ok some_prod, w') =>
          let product_list := product_list ++ offerMappingEntries some_prod in
          let page := nextPageToken (paging some_prod) in
          if falsy page then Some (Ok product_list, w')
          else get_offer_ids_pages fuel' campaign_id market_token
                 (token_text page) product_list w'
      end
  end.

Definition get_offer_ids (fuel : nat) (campaign_id market_token : string) (w : W)
  : option (result (list string) * W) :=
  match get_offer_ids_pages fuel campaign_id market_token "" [] w with
  | None => None
  | Some (Raise e, w') => Some (Raise e, w')
  | Some (Ok product_list, w') =>
      Some (Ok (map (fun product => shopSku (entry_offer product)) product_list), w')
  end.

(** [clock] is what [datetime.utcnow] reads in the world [w]. *)
Variable clock : W -> string.

Definition upload_stocks (fuel : nat) (watch_remnants : list Py.dict)
  (campaign_id market_token warehouse_id : string) (w : W)
  : option (result (list stock_record * list stock_record) * W) :=
  match get_offer_ids fuel campaign_id market_token w with
  | None => None
  | Some (Raise e, w1) => Some (Raise e, w1)
  | Some (Ok offer_ids, w1) =>
      match (r <- create_stocks (clock w1) watch_remnants offer_ids warehouse_id ;;
             batches <- Seller.divide (fst r) 2000 ;;
             Ok (fst r, batches)) with
      | Raise e => Some (Raise e, w1)
      | Ok (stocks, batches) =>
          match for_each (fun some_stock =>
                            update_stocks some_stock campaign_id market_token)
                         batches w1 with
          | (Raise e, w2) => Some (Raise e, w2)
          | (Ok _, w2) =>
              match Py.filter
                      (fun stock =>
                         first <- Py.getitem (stock_items stock) 0 ;;
                         Ok (negb (count first =? 0)))
                      stocks with
              | Raise e => Some (Raise e, w2)
              | Ok not_empty => Some (Ok (not_empty, stocks), w2)
              end
          end
      end
  end.

Variable post_offer_prices :
  forall (campaign_id access_token : string), list price_record -> W -> response unit * W.

Definition update_price (prices : list price_record)
  (campaign_id access_token : string) (w : W) : result unit * W :=
  raise_for_status (post_offer_prices campaign_id access_token prices w).

(** The body of the coroutine [upload_prices]. *)
Definition upload_prices (fuel : nat) (watch_remnants : list Py.dict)
  (campaign_id market_token : string) (w : W)
  : option (result (list price_record) * W) :=
  match get_offer_ids fuel campaign_id market_token w with
  | None => None
  | Some (Raise e, w1) => Some (Raise e, w1)
  | Some (Ok offer_ids, w1) =>
      match (prices <- create_prices watch_remnants offer_ids ;;
             batches <- Seller.divide prices 500 ;;
             Ok (prices, batches)) with
      | Raise e => Some (Raise e, w1)
      | Ok (prices, batches) =>
          match for_each (fun some_prices =>
                            update_price some_prices campaign_id market_token)
                         batches w1 with
          | (Raise e, w2) => Some (Raise e, w2)
          | (Ok _, w2) => Some (Ok prices, w2)
          end
      end
  end.

End Transport.

End Interpreted.

End Market.

(** * Vocabulary of the specification *)

Section Vocabulary.

Context {interp : Interpreter}.

(** The characters of a string. *)
Definition chars_of (s : string) : list ascii := list_ascii_of_string s.

(** The string key of a local row, [str(watch.get("Код"))], and its
    quantity indicator, [str(watch.get("Количество"))]. *)
Definition code (watch : Py.dict) : string := Py.str (Py.get watch "Код").

Definition indicator (watch : Py.dict) : string :=
  Py.str (Py.get watch "Количество").

(** The quantity rule in the words of the specification: [">10"] is
    100, ["1"] is 0, any other indicator is parsed as an integer. *)
Definition quantity_of_indicator (s : string) : option Z :=
  if String.eqb s ">10" then Some 100
  else if String.eqb s "1" then Some 0
  else Py.int_of_string s.

(** The quantity as both [create_stocks] compute it for a row. *)
Definition stock_of (watch : Py.dict) : result Z :=
  if String.eqb (indicator watch) ">10" then Ok 100
  else if String.eqb (indicator watch) "1" then Ok 0
  else Py.int (Py.get watch "Количество").

(** [f] applied to every element in order, up to the first failure. *)
Fixpoint traverse {A B : Type} (f : A -> result B) (l : list A)
  : result (list B) :=
  match l with
  | [] => Ok []
  | a :: l' => b <- f a ;; bs <- traverse f l' ;; Ok (b :: bs)
  end.

(** The list without the first occurrence of [x], if there is one. *)
Fixpoint remove_first (x : string) (l : list string) : list string :=
  match l with
  | [] => []
  | y :: l' => if String.eqb y x then l' else y :: remove_first x l'
  end.

(** The remote collection as the rows [rows] leave it: every row takes
    the first occurrence of its code out. *)
Fixpoint remaining (rows : list Py.dict) (offer_ids : list string)
  : list string :=
  match rows with
  | [] => offer_ids
  | watch :: rows' => remaining rows' (remove_first (code watch) offer_ids)
  end.

(** The rows that find their code in the collection when their turn
    comes. *)
Fixpoint matched_rows (rows : list Py.dict) (offer_ids : list string)
  : list Py.dict :=
  match rows with
  | [] => []
  | watch :: rows' =>
      if Py.contains (code watch) offer_ids
      then watch :: matched_rows rows' (remove_first (code watch) offer_ids)
      else matched_rows rows' offer_ids
  end.

(** Some row has the code [offer_id]. *)
Definition matched_by (rows : list Py.dict) (offer_id : string) : bool :=
  existsb (fun watch => String.eqb (code watch) offer_id) rows.

(** The first row with the code [offer_id]. *)
Definition first_row (rows : list Py.dict) (offer_id : string)
  : option Py.dict :=
  find (fun watch => String.eqb (code watch) offer_id) rows.

(** A stock record of either marketplace, read as an offer id and a
    quantity. *)
Definition seller_view (s : Seller.stock_record) : string * Z :=
  (Seller.stock_offer_id s, Seller.stock s).

Definition market_quantity (s : Market.stock_record) : Z :=
  match Market.stock_items s with
  | first :: _ => Market.count first
  | [] => 0
  end.

Definition market_view (s : Market.stock_record) : string * Z :=
  (Market.sku s, market_quantity s).

(** The records the two [create_stocks] build. *)
Definition seller_stock (offer_id : string) (quantity : Z)
  : Seller.stock_record :=
  {| Seller.stock_offer_id := offer_id; Seller.stock := quantity |}.

Definition market_stock (date warehouse_id offer_id : string) (quantity : Z)
  : Market.stock_record :=
  {| Market.sku := offer_id;
     Market.warehouseId := warehouse_id;
     Market.stock_items := [{| Market.count := quantity;
                               Market.item_type := "FIT";
                               Market.updatedAt := date |}] |}.

(** The record each [create_stocks] appends for a matched row. *)
Definition seller_stock_of (watch : Py.dict) : result Seller.stock_record :=
  q <- stock_of watch ;; Ok (seller_stock (code watch) q).

Definition market_stock_of (date warehouse_id : string) (watch : Py.dict)
  : result Market.stock_record :=
  q <- stock_of watch ;; Ok (market_stock date warehouse_id (code watch) q).

(** The record each [create_prices] appends for a matched row. *)
Definition seller_price_of (watch : Py.dict) : result Seller.price_record :=
  converted <- Seller.price_conversion (Py.get watch "Цена") ;;
  Ok {| Seller.auto_action_enabled := "UNKNOWN";
        Seller.currency_code := "RUB";
        Seller.price_offer_id := code watch;
        Seller.old_price := "0";
        Seller.price := converted |}.

Definition market_price_of (watch : Py.dict) : result Market.price_record :=
  converted <- Seller.price_conversion (Py.get watch "Цена") ;;
  value <- Py.int (VStr converted) ;;
  Ok {| Market.id := code watch;
        Market.price := {| Market.value_ := value;
                           Market.currencyId := "RUR" |} |}.

(** The row has a remote code. *)
Definition in_remote (offer_ids : list string) (watch : Py.dict) : bool :=
  Py.contains (code watch) offer_ids.

(** A price record of either marketplace is the one of a row: it has
    the code of the row, its normalised price, and the constant fields
    of the marketplace. *)
Definition seller_price_for (watch : Py.dict) (p : Seller.price_record)
  : Prop :=
  exists converted,
    Seller.price_conversion (Py.get watch "Цена") = Ok converted
    /\ p = {| Seller.auto_action_enabled := "UNKNOWN";
              Seller.currency_code := "RUB";
              Seller.price_offer_id := code watch;
              Seller.old_price := "0";
              Seller.price := converted |}.

Definition market_price_for (watch : Py.dict) (p : Market.price_record)
  : Prop :=
  exists converted value,
    Seller.price_conversion (Py.get watch "Цена") = Ok converted
    /\ Py.int (VStr converted) = Ok value
    /\ p = {| Market.id := code watch;
              Market.price := {| Market.value_ := value;
                                 Market.currencyId := "RUR" |} |}.

(** A stock list, read as pairs, is built from the rows and the ids:
    first a record for every matched row, in the order of the rows, then
    a zero record for every remaining id, in the order of the ids. *)
Definition stocks_built (rows : list Py.dict) (offer_ids : list string)
  (stocks : list (string * Z)) : Prop :=
  exists records,
    Forall2 (fun watch record =>
               exists q, stock_of watch = Ok q /\ record = (code watch, q))
            (matched_rows rows offer_ids) records
    /\ stocks = records ++ map (fun offer_id => (offer_id, 0))
                               (remaining rows offer_ids).

(** A stock list, read as pairs, reconciles the rows [rows] with the
    remote ids [offer_ids]: its ids are those of [offer_ids], none
    twice; an id that some row has carries the quantity the rule gives
    for the first such row, and any other id carries 0; a row whose
    code is not remote has no record. *)
Definition reconciled (rows : list Py.dict) (offer_ids : list string)
  (stocks : list (string * Z)) : Prop :=
  Permutation (map fst stocks) offer_ids
  /\ NoDup (map fst stocks)
  /\ (forall offer_id, In offer_id offer_ids ->
        match first_row rows offer_id with
        | Some watch =>
            exists q, quantity_of_indicator (indicator watch) = Some q
                      /\ In (offer_id, q) stocks
        | None => In (offer_id, 0) stocks
        end)
  /\ (forall watch, In watch rows -> ~ In (code watch) offer_ids ->
        ~ In (code watch) (map fst stocks)).

(** The value of a decimal numeral read after the digits worth [acc]. *)
Fixpoint uint_value (acc : Z) (d : Decimal.uint) : Z :=
  match d with
  | Nil => acc
  | D0 d => uint_value (10 * acc) d
  | D1 d => uint_value (10 * acc + 1) d
  | D2 d => uint_value (10 * acc + 2) d
  | D3 d => uint_value (10 * acc + 3) d
  | D4 d => uint_value (10 * acc + 4) d
  | D5 d => uint_value (10 * acc + 5) d
  | D6 d => uint_value (10 * acc + 6) d
  | D7 d => uint_value (10 * acc + 7) d
  | D8 d => uint_value (10 * acc + 8) d
  | D9 d => uint_value (10 * acc + 9) d
  end.

End Vocabulary.

(** ** The answers of a marketplace to a listing loop *)

Arguments Seller.get_product_list {W} post_product_list.
Arguments Seller.get_offer_ids_pages {W} post_product_list.
Arguments Seller.get_offer_ids {W} post_product_list.
Arguments Seller.update_stocks {W} post_import_stocks.
Arguments Seller.upload_stocks {interp W} post_product_list post_import_stocks.
Arguments Market.get_product_list {W} get_offer_mapping_entries.
Arguments Market.get_offer_ids_pages {W} get_offer_mapping_entries.
Arguments Market.get_offer_ids {W} get_offer_mapping_entries.
Arguments Market.update_stocks {W} put_offers_stocks.
Arguments Market.upload_stocks {interp W} get_offer_mapping_entries
  put_offers_stocks clock.

Section SellerListing.

Variable W : Type.
Variable post_product_list :
  string -> string -> string -> W -> response Seller.product_page * W.
Variables client_id seller_token : string.

(** [seller_answers last_id w pages w']: asked first with [last_id] and
    then each time with the [last_id] of its previous answer, the
    marketplace answers the pages [pages], every request succeeding,
    and the world goes from [w] to [w']. *)
Inductive seller_answers
  : string -> W -> list Seller.product_page -> W -> Prop :=
| seller_answers_none last_id w : seller_answers last_id w [] w
| seller_answers_page last_id w some_prod w1 pages w' :
    Seller.get_product_list post_product_list last_id client_id seller_token w
    = (Ok some_prod, w1) ->
    seller_answers (Seller.page_last_id some_prod) w1 pages w' ->
    seller_answers last_id w (some_prod :: pages) w'.

(** With [received] items at hand already, the number of items
    received equals the reported total at the last of [pages] and at no
    page before it. *)
Fixpoint seller_stops_at_last (received : Z)
  (pages : list Seller.product_page) : Prop :=
  match pages with
  | [] => False
  | some_prod :: later =>
      let received := received + Py.len (Seller.items some_prod) in
      match later with
      | [] => Seller.total some_prod = received
      | _ :: _ =>
          Seller.total some_prod <> received
          /\ seller_stops_at_last received later
      end
  end.

End SellerListing.

Section MarketListing.

Variable W : Type.
Variable get_offer_mapping_entries :
  string -> string -> string -> W -> response Market.product_page * W.
Variables campaign_id market_token : string.

Definition next_page (some_prod : Market.product_page) : option string :=
  Market.nextPageToken (Market.paging some_prod).

(** [market_answers page w pages w']: asked first with the token [page]
    and then each time with the next-page token of its previous answer,
    the marketplace answers the pages [pages], every request
    succeeding, and the world goes from [w] to [w']. *)
Inductive market_answers
  : string -> W -> list Market.product_page -> W -> Prop :=
| market_answers_none page w : market_answers page w [] w
| market_answers_page page w some_prod w1 pages w' :
    Market.get_product_list get_offer_mapping_entries page campaign_id
      market_token w = (Ok some_prod, w1) ->
    market_answers (Market.token_text (next_page some_prod)) w1 pages w' ->
    market_answers page w (some_prod :: pages) w'.

(** The next-page token is missing or empty at the last of [pages] and
    at no page before it. *)
Fixpoint market_stops_at_last (pages : list Market.product_page) : Prop :=
  match pages with
  | [] => False
  | some_prod :: later =>
      match later with
      | [] => Market.falsy (next_page some_prod) = true
      | _ :: _ =>
          Market.falsy (next_page some_prod) = false
          /\ market_stops_at_last later
      end
  end.

End MarketListing.

Arguments seller_answers {W} post_product_list client_id seller_token.
Arguments market_answers {W} get_offer_mapping_entries campaign_id market_token.

(** The identifiers of the entries of a list of pages, page by page. *)
Definition seller_ids (pages : list Seller.product_page) : list string :=
  map Seller.offer_id (concat (map Seller.items pages)).

Definition market_ids (pages : list Market.product_page) : list string :=
  map (fun product => Market.shopSku (Market.entry_offer product))
      (concat (map Market.offerMappingEntries pages)).

(** ** A sample marketplace

    The world is the number of requests served.  The listing has the
    offers X and Y on its first page and Z on its second, three in
    total; stock updates are accepted. *)

Definition sample_product_list (client_id seller_token last_id : string)
  (served : nat) : response Seller.product_page * nat :=
  ({| status_ok := true;
      body := if String.eqb last_id ""
              then {| Seller.items := [{| Seller.offer_id := "X" |};
                                       {| Seller.offer_id := "Y" |}];
                      Seller.total := 3;
                      Seller.page_last_id := "Y" |}
              else {| Seller.items := [{| Seller.offer_id := "Z" |}];
                      Seller.total := 3;
                      Seller.page_last_id := "" |} |},
   S served).

Definition sample_import_stocks (client_id seller_token : string)
  (stocks : list Seller.stock_record) (served : nat) : response unit * nat :=
  ({| status_ok := true; body := tt |}, S served).

Definition sample_rows : list Py.dict :=
  [[("Код", VStr "X"); ("Количество", VStr ">10")];
   [("Код", VStr "Y"); ("Количество", VStr "1")]].

(** ** Further vocabulary *)

Arguments Seller.update_price {W} post_import_prices.
Arguments Seller.upload_prices {W} post_product_list post_import_prices.
Arguments Seller.main_try {interp W} post_product_list post_import_stocks
  post_import_prices download_stock.
Arguments Seller.main {interp W} post_product_list post_import_stocks
  post_import_prices download_stock.
Arguments Market.update_price {W} post_offer_prices.
Arguments Market.upload_prices {interp W} get_offer_mapping_entries
  post_offer_prices.

(** The exit test of the Ozon loop fails at every page of [pages],
    [received] items being at hand before them. *)
Fixpoint seller_never_stops (received : Z) (pages : list Seller.product_page)
  : Prop :=
  match pages with
  | [] => True
  | some_prod :: later =>
      let received := received + Py.len (Seller.items some_prod) in
      Seller.total some_prod <> received /\ seller_never_stops received later
  end.

(** The [last_id] sent after the pages [pages], [last_id] having been
    sent before them. *)
Definition seller_next_last_id (last_id : string)
  (pages : list Seller.product_page) : string :=
  last (map Seller.page_last_id pages) last_id.

(** Every page of [pages] carries a next-page token that is not
    empty. *)
Definition market_never_stops (pages : list Market.product_page) : Prop :=
  Forall (fun some_prod => Market.falsy (next_page some_prod) = false) pages.

(** The token sent after the pages [pages], [page] having been sent
    before them. *)
Definition market_next_page (page : string) (pages : list Market.product_page)
  : string :=
  last (map (fun some_prod => Market.token_text (next_page some_prod)) pages)
       page.

(** The stock record of market.py with the content of one of
    seller.py. *)
Definition market_of_seller (date warehouse_id : string)
  (s : Seller.stock_record) : Market.stock_record :=
  market_stock date warehouse_id (Seller.stock_offer_id s) (Seller.stock s).

(** The price cell of a row is a string. *)
Definition has_price_text (watch : Py.dict) : Prop :=
  exists s, Py.get watch "Цена" = VStr s.

Section Readings.

Context {interp : Interpreter}.

(** The price cell of a row is a string with a digit before its first
    full stop, and with no more digits there than the interpreter
    converts. *)
Definition has_price_digits (watch : Py.dict) : Prop :=
  exists s d,
    Py.get watch "Цена" = VStr s
    /\ Seller.price_conversion (VStr s) = Ok d
    /\ d <> EmptyString
    /\ Py.over_limit d = false.

(** [int] reads the text [s]: it is a number to the interpreter, and
    an ASCII one is within the limit on digits. *)
Definition int_reads (s : string) : Prop :=
  (exists z, Py.int_of_string s = Some z)
  /\ (Py.is_ascii s = true -> Py.over_limit s = false).

(** The quantity cell of a row resolves: it is one of the two marks,
    as a text or as a number, or an integer, or a text that [int]
    reads. *)
Definition resolves (watch : Py.dict) : Prop :=
  indicator watch = ">10"
  \/ indicator watch = "1"
  \/ (exists z, Py.get watch "Количество" = VInt z)
  \/ (exists s, Py.get watch "Количество" = VStr s /\ int_reads s).

End Readings.


(** More of the sample marketplace: prices are accepted, and the
    stock file has two rows, with prices. *)
Definition sample_import_prices (client_id seller_token : string)
  (prices : list Seller.price_record) (served : nat) : response unit * nat :=
  ({| status_ok := true; body := tt |}, S served).

Definition sample_priced_rows : list Py.dict :=
  [[("Код", VStr "X"); ("Количество", VStr ">10"); ("Цена", VStr "100.00")];
   [("Код", VStr "Y"); ("Количество", VStr "1"); ("Цена", VStr "200.00")]].

Definition sample_download_stock (served : nat)
  : result (list Py.dict) * nat :=
  (Ok sample_priced_rows, served).

(** A marketplace that refuses every stock update. *)
Definition refusing_import_stocks (client_id seller_token : string)
  (stocks : list Seller.stock_record) (served : nat) : response unit * nat :=
  ({| status_ok := false; body := tt |}, S served).

(** A marketplace whose listing always reports one offer in total and
    hands out two. *)
Definition overfull_product_list (client_id seller_token last_id : string)
  (served : nat) : response Seller.product_page * nat :=
  ({| status_ok := true;
      body := {| Seller.items := [{| Seller.offer_id := "X" |};
                                  {| Seller.offer_id := "Y" |}];
                 Seller.total := 1;
                 Seller.page_last_id := "Y" |} |},
   S served).

(** A marketplace whose listing fails on the second request. *)
Definition failing_product_list (client_id seller_token last_id : string)
  (served : nat) : response Seller.product_page * nat :=
  ({| status_ok := Nat.eqb served 0;
      body := {| Seller.items := [{| Seller.offer_id := "X" |}];
                 Seller.total := 3;
                 Seller.page_last_id := "X" |} |},
   S served).

(** * Properties *)

(** An example in ASCII evaluates the same under every interpreter, its
    few digits being within any limit. *)
Ltac by_evaluation :=
  match goal with
  | i : Interpreter |- _ => destruct i as [[?|] ?]
  end;
  vm_compute; reflexivity.

(** ** The batcher *)

Section Divide.

Context {A : Type}.
Implicit Types (lst : list A) (n : Z).

Lemma firstn_add lst (a b : nat) :
  firstn (a + b) lst = firstn a lst ++ firstn b (skipn a lst).
Proof.
  revert lst; induction a as [|a IH]; intros [|x lst]; simpl; try reflexivity.
  - now rewrite firstn_nil.
  - now rewrite IH.
Qed.

Lemma firstn_clip lst (a b : nat) :
  (Nat.min a (List.length lst) = Nat.min b (List.length lst))%nat ->
  firstn a lst = firstn b lst.
Proof.
  revert a b; induction lst as [|x lst IH]; intros a b H.
  - now rewrite !firstn_nil.
  - destruct a, b; simpl in *; try reflexivity; try discriminate.
    f_equal; apply IH; lia.
Qed.

(** The chunk that [divide] cuts at a multiple of the chunk size. *)
Lemma slice_chunk lst n (k : nat) :
  0 < n -> Z.of_nat k * n <= Py.len lst ->
  Py.slice lst (Z.of_nat k * n) (Z.of_nat k * n + n)
  = firstn (Z.to_nat n) (skipn (k * Z.to_nat n) lst).
Proof.
  intros Hn Hk; unfold Py.slice, Py.clamp, Py.len in *.
  destruct (Z.ltb_spec (Z.of_nat k * n) 0); [lia|].
  destruct (Z.ltb_spec (Z.of_nat k * n + n) 0); [lia|].
  replace (Z.to_nat (Z.min (Z.of_nat k * n) (Z.of_nat (List.length lst))))
    with (k * Z.to_nat n)%nat by nia.
  apply firstn_clip; rewrite length_skipn; nia.
Qed.

Lemma concat_chunks lst (c m : nat) :
  concat (map (fun k => firstn c (skipn (k * c) lst)) (seq 0 m))
  = firstn (m * c) lst.
Proof.
  induction m as [|m IH]; [reflexivity|].
  rewrite seq_S, map_app, concat_app, IH; simpl.
  rewrite app_nil_r, (Nat.add_comm c), firstn_add; reflexivity.
Qed.

(** With a positive chunk size [divide] cuts at [0], [n], [2n], ... *)
Lemma divide_positive lst n :
  0 < n ->
  Seller.divide lst n
  = Ok (map (fun k => firstn (Z.to_nat n) (skipn (k * Z.to_nat n) lst))
            (seq 0 (Z.to_nat (Py.range_length 0 (Py.len lst) n)))).
Proof.
  intros Hn; unfold Seller.divide, Py.range.
  destruct (Z.eqb_spec n 0); [lia|]; simpl.
  f_equal; rewrite map_map; apply map_ext_in; intros k Hk.
  apply in_seq in Hk; apply slice_chunk; [assumption|].
  revert Hk; unfold Py.range_length.
  destruct (Z.ltb_spec 0 n); [|lia].
  destruct (Z.ltb_spec 0 (Py.len lst)); [|simpl; lia].
  intros [_ Hk]; simpl in Hk.
  pose proof (Z.mul_div_le (Py.len lst - 1 - 0) n Hn).
  assert (Z.of_nat k <= (Py.len lst - 1 - 0) / n) by lia. nia.
Qed.

End Divide.

Section DivideClaims.

Context {A : Type}.

(** The number of chunks times the chunk size reaches the end of the
    list, and every chunk before the last one ends within it. *)
Lemma range_length_cover (len n : Z) :
  0 < n -> 0 <= len ->
  let m := Py.range_length 0 len n in
  0 <= m /\ len <= m * n /\ (m - 1) * n < len \/ len = 0 /\ m = 0.
Proof.
  intros Hn Hlen; unfold Py.range_length.
  destruct (Z.ltb_spec 0 n); [|lia].
  destruct (Z.ltb_spec 0 len); [left|right; lia].
  pose proof (Z.mul_div_le (len - 1 - 0) n Hn).
  pose proof (Z.mul_succ_div_gt (len - 1 - 0) n Hn).
  assert (0 <= (len - 1 - 0) / n) by (apply Z.div_pos; lia).
  nia.
Qed.

(** C5: for a positive chunk size [n], [divide] returns chunks whose
    concatenation is the input list, each of length at most [n], and
    each but the last of length exactly [n].  (The list may be empty:
    there are then no chunks.) *)
Theorem divide_partitions (lst : list A) (n : Z) :
  0 < n ->
  exists chunks,
    Seller.divide lst n = Ok chunks
    /\ concat chunks = lst
    /\ Forall (fun chunk => Py.len chunk <= n) chunks
    /\ (forall i chunk,
          nth_error chunks i = Some chunk ->
          (S i < length chunks)%nat ->
          Py.len chunk = n).
Proof.
  intros Hn; rewrite divide_positive by assumption.
  eexists; split; [reflexivity|].
  pose proof (range_length_cover (Py.len lst) n Hn) as Hm.
  unfold Py.len in *; specialize (Hm (Nat2Z.is_nonneg _)); simpl in Hm.
  set (m := Z.to_nat (Py.range_length 0 (Z.of_nat (length lst)) n)) in *.
  set (c := Z.to_nat n).
  repeat split.
  - rewrite concat_chunks; apply firstn_all2; nia.
  - apply Forall_forall; intros chunk Hin.
    apply in_map_iff in Hin as (k & <- & _).
    rewrite length_firstn; lia.
  - intros i chunk Hnth Hi.
    rewrite length_map, length_seq in Hi.
    rewrite nth_error_map in Hnth.
    destruct (nth_error (seq 0 m) i) as [k|] eqn:Hk; [|discriminate].
    apply nth_error_nth with (d := O) in Hk.
    rewrite seq_nth in Hk by lia; simpl in Hk; subst k.
    injection Hnth as <-.
    rewrite length_firstn, length_skipn; nia.
Qed.

End DivideClaims.

Lemma divide_partitions_witness :
  exists chunks,
    Seller.divide [1; 2; 3; 4; 5] 2 = Ok chunks
    /\ concat chunks = [1; 2; 3; 4; 5]
    /\ Forall (fun chunk => Py.len chunk <= 2) chunks
    /\ (forall i chunk,
          nth_error chunks i = Some chunk ->
          (S i < length chunks)%nat ->
          Py.len chunk = 2).
Proof. apply (divide_partitions [1; 2; 3; 4; 5] 2); reflexivity. Defined.

(** C6, as the code has it: a zero chunk size raises (the [ValueError]
    of [range]), while a negative one raises nothing and yields no
    chunk at all. *)
Theorem divide_non_positive {A : Type} (lst : list A) (n : Z) :
  n <= 0 ->
  Seller.divide lst n = if n =? 0 then Raise ValueError else Ok [].
Proof.
  intros Hn; unfold Seller.divide, Py.range.
  destruct (Z.eqb_spec n 0) as [->|Hnz]; [reflexivity|].
  unfold Py.range_length, Py.len.
  destruct (Z.ltb_spec 0 n); [lia|].
  destruct (Z.ltb_spec (Z.of_nat (length lst)) 0); [lia|].
  reflexivity.
Qed.

Lemma divide_non_positive_witness :
  Seller.divide [1; 2; 3] 0 = Raise ValueError.
Proof. apply (divide_non_positive [1; 2; 3] 0); lia. Defined.

(** A negative chunk size is no error: the call returns an empty list
    of chunks. *)
Lemma divide_negative_returns :
  -2 <= 0
  /\ Seller.divide [1; 2; 3] (-2) = Ok []
  /\ ~ (exists e, Seller.divide [1; 2; 3] (-2) = Raise e).
Proof.
  split; [lia|]; split; [reflexivity|].
  intros [e He]; discriminate He.
Qed.

(** ** The price normaliser *)

Lemma is_digit_spec (c : ascii) :
  Py.is_digit c = true <->
  In c ["0"; "1"; "2"; "3"; "4"; "5"; "6"; "7"; "8"; "9"]%char.
Proof.
  split.
  - destruct c as [[] [] [] [] [] [] [] []]; simpl; intros H;
      try discriminate H; tauto.
  - simpl; intros H; decompose [or] H; subst; try reflexivity; contradiction.
Qed.

Lemma re_sub_non_digit_filter (s : string) :
  Py.re_sub_non_digit s
  = string_of_list_ascii (filter Py.is_digit (chars_of s)).
Proof.
  induction s as [|c s IH]; simpl; [reflexivity|].
  destruct (Py.is_digit c); simpl; now rewrite IH.
Qed.

(** The first field of [s.split(".")] is the longest prefix of [s]
    without a full stop. *)
Lemma split_first_field (s : string) :
  exists prefix fields,
    Py.split "." s = prefix :: fields
    /\ ~ In "."%char (chars_of prefix)
    /\ (s = prefix \/ exists rest, s = String.append prefix (String "." rest)).
Proof.
  induction s as [|c s (prefix & fields & Hsplit & Hdot & Hs)]; simpl.
  - exists EmptyString, []; simpl; tauto.
  - destruct (Ascii.eqb_spec c ".") as [->|Hc].
    + exists EmptyString, (Py.split "." s); simpl.
      split; [reflexivity|]; split; [tauto|]; right; now exists s.
    + rewrite Hsplit; exists (String c prefix), fields; simpl.
      split; [reflexivity|]; split; [intuition congruence|].
      destruct Hs as [->|[rest ->]]; [now left|right; now exists rest].
Qed.

(** C3: [price_conversion] returns the ASCII digits, in order, of the
    part of the string before its first full stop (of the whole string
    when it has none). *)
Theorem price_conversion_digits_before_point :
  (forall s : string,
     exists prefix,
       (s = prefix \/ exists rest, s = String.append prefix (String "." rest))
       /\ ~ In "."%char (chars_of prefix)
       /\ Seller.price_conversion (VStr s)
          = Ok (string_of_list_ascii (filter Py.is_digit (chars_of prefix))))
  /\ Seller.price_conversion (VStr "5'990.00 руб.") = Ok "5990"
  /\ Seller.price_conversion (VStr "12.50") = Ok "12".
Proof.
  split; [|split; reflexivity].
  intros s; destruct (split_first_field s) as (prefix & fields & Hsplit & Hdot & Hs).
  exists prefix; repeat split; try assumption.
  unfold Seller.price_conversion; rewrite Hsplit; simpl.
  now rewrite re_sub_non_digit_filter.
Qed.

(** C4, as the code has it: a string without any digit, the empty
    string included, is converted to the empty string and nothing is
    raised; [None] raises [AttributeError]. *)
Theorem price_conversion_without_digits (s : string) :
  (forall c, In c (chars_of s) -> Py.is_digit c = false) ->
  Seller.price_conversion (VStr s) = Ok ""
  /\ Seller.price_conversion VNone = Raise AttributeError.
Proof.
  intros Hs; split; [|reflexivity].
  destruct (split_first_field s) as (prefix & fields & Hsplit & _ & Hprefix).
  unfold Seller.price_conversion; rewrite Hsplit; simpl; f_equal.
  assert (Hp : forall c, In c (chars_of prefix) -> Py.is_digit c = false).
  { intros c Hc; apply Hs.
    destruct Hprefix as [->|[rest ->]]; [assumption|].
    clear -Hc; induction prefix as [|a p IH]; simpl in *; [contradiction|].
    destruct Hc as [->|Hc]; [now left|right; now apply IH]. }
  clear -Hp; induction prefix as [|a p IH]; simpl in *; [reflexivity|].
  rewrite (Hp a) by now left. apply IH; intros c Hc; apply Hp; now right.
Qed.

Lemma price_conversion_without_digits_witness :
  Seller.price_conversion (VStr "") = Ok ""
  /\ Seller.price_conversion VNone = Raise AttributeError.
Proof.
  apply (price_conversion_without_digits "").
  simpl; intros c Hc; contradiction.
Defined.

(** Neither an empty nor a non-numeric price is an error. *)
Lemma price_conversion_empty_returns :
  Seller.price_conversion (VStr "") = Ok ""
  /\ Seller.price_conversion (VStr "руб.") = Ok ""
  /\ ~ (exists e, Seller.price_conversion (VStr "") = Raise e)
  /\ ~ (exists e, Seller.price_conversion (VStr "руб.") = Raise e).
Proof.
  repeat split; try reflexivity; intros [e He]; discriminate He.
Qed.

(** ** [str] and [int] agree on integers *)

Section WithInterpreter.

Context {interp : Interpreter}.

Lemma digit_is_not_space (c : ascii) :
  Py.is_digit c = true -> Py.is_space c = false.
Proof.
  intros H; apply is_digit_spec in H; simpl in H.
  decompose [or] H; subst; try reflexivity; contradiction.
Qed.

Lemma lstrip_no_space (c : ascii) (s : string) :
  Py.is_space c = false -> Py.lstrip (String c s) = String c s.
Proof. intros H; simpl; now rewrite H. Qed.

Lemma rstrip_no_space (s : string) :
  Forall (fun c => Py.is_space c = false) (chars_of s) -> Py.rstrip s = s.
Proof.
  induction s as [|c s IH]; simpl; [reflexivity|].
  intros H; inversion H as [|? ? Hc Hs]; subst.
  rewrite (IH Hs); destruct s; [now rewrite Hc|reflexivity].
Qed.

Lemma string_of_uint_digits (d : Decimal.uint) :
  Forall (fun c => Py.is_digit c = true) (chars_of (NilEmpty.string_of_uint d)).
Proof. induction d; simpl; constructor; auto. Qed.

Lemma digits_string_of_uint (d : Decimal.uint) (acc : Z) :
  Py.digits acc true (NilEmpty.string_of_uint d) = Some (uint_value acc d).
Proof.
  revert acc; induction d; intros acc; simpl; try reflexivity;
    rewrite IHd; do 2 f_equal; unfold Py.digit_value; simpl; lia.
Qed.

Lemma uint_value_acc (d : Decimal.uint) (p : positive) :
  uint_value (Z.pos p) d = Z.pos (Pos.of_uint_acc d p).
Proof.
  revert p; induction d; intros p; cbn [uint_value Pos.of_uint_acc];
    try reflexivity; rewrite <- IHd; f_equal; lia.
Qed.

Lemma uint_value_of_uint (d : Decimal.uint) :
  uint_value 0 d = Z.of_N (Pos.of_uint d).
Proof.
  induction d; simpl; try assumption; try reflexivity;
    apply (uint_value_acc d).
Qed.

(** Parsing the decimal numeral of a positive number. *)
Lemma digits_to_uint (p : positive) :
  exists c s,
    NilZero.string_of_uint (Pos.to_uint p) = String c s
    /\ Py.is_digit c = true
    /\ Forall (fun c => Py.is_space c = false) (chars_of (String c s))
    /\ Py.digits 0 false (String c s) = Some (Z.pos p).
Proof.
  pose proof (DecimalPos.Unsigned.to_uint_nonnil p) as Hnil.
  pose proof (string_of_uint_digits (Pos.to_uint p)) as Hdig.
  assert (Hv : uint_value 0 (Pos.to_uint p) = Z.pos p)
    by (rewrite uint_value_of_uint, DecimalPos.Unsigned.of_to; reflexivity).
  assert (Hparse : Py.digits 0 false (NilEmpty.string_of_uint (Pos.to_uint p))
                   = Some (Z.pos p)).
  { rewrite <- Hv; destruct (Pos.to_uint p) as [|d|d|d|d|d|d|d|d|d|d];
      [contradiction| ..];
      match goal with
      | |- Py.digits _ _ (NilEmpty.string_of_uint ?u) = _ =>
          exact (digits_string_of_uint u 0)
      end. }
  replace (NilZero.string_of_uint (Pos.to_uint p))
    with (NilEmpty.string_of_uint (Pos.to_uint p))
    by (destruct (Pos.to_uint p); [contradiction|reflexivity ..]).
  destruct (NilEmpty.string_of_uint (Pos.to_uint p)) as [|c s];
    [discriminate Hparse|].
  exists c, s; split; [reflexivity|]; split; [now inversion Hdig|].
  split; [|assumption].
  eapply Forall_impl; [|exact Hdig]; apply digit_is_not_space.
Qed.

Lemma int_of_ascii_str (z : Z) : Py.int_of_ascii (Py.str (VInt z)) = Some z.
Proof.
  destruct z as [|p|p]; [reflexivity| |]; simpl;
    destruct (digits_to_uint p) as (c & s & -> & Hc & Hsp & Hparse).
  - unfold Py.int_of_ascii, Py.strip.
    rewrite lstrip_no_space by (inversion Hsp; assumption).
    rewrite rstrip_no_space by assumption.
    apply is_digit_spec in Hc; simpl in Hc.
    decompose [or] Hc; subst; try contradiction; exact Hparse.
  - unfold Py.int_of_ascii, Py.strip.
    rewrite lstrip_no_space by reflexivity.
    rewrite rstrip_no_space by (constructor; [reflexivity|assumption]).
    change (option_map Z.opp (Py.digits 0 false (String c s)) = Some (Z.neg p)).
    rewrite Hparse; reflexivity.
Qed.

Lemma is_ascii_digits (s : string) :
  Forall (fun c => Py.is_digit c = true) (chars_of s) -> Py.is_ascii s = true.
Proof.
  induction s as [|c s IH]; simpl; [reflexivity|].
  intros H; inversion H as [|? ? Hc Hs]; subst.
  rewrite (IH Hs), andb_true_r.
  apply is_digit_spec in Hc; simpl in Hc.
  decompose [or] Hc; subst; try reflexivity; contradiction.
Qed.

Lemma string_of_uint_zero_digits (d : Decimal.uint) :
  Forall (fun c => Py.is_digit c = true) (chars_of (NilZero.string_of_uint d)).
Proof.
  destruct d; try exact (string_of_uint_digits _).
  repeat constructor.
Qed.

(** The text of an integer is ASCII. *)
Lemma is_ascii_str (z : Z) : Py.is_ascii (Py.str (VInt z)) = true.
Proof.
  destruct z as [|p|p]; [reflexivity| |]; simpl.
  - apply is_ascii_digits, string_of_uint_zero_digits.
  - apply is_ascii_digits, string_of_uint_zero_digits.
Qed.

Lemma int_of_string_str (z : Z) : Py.int_of_string (Py.str (VInt z)) = Some z.
Proof.
  unfold Py.int_of_string; rewrite is_ascii_str; apply int_of_ascii_str.
Qed.

(** What [int] returns for a text is what the text reads as. *)
Lemma int_of_text (s : string) (z : Z) :
  Py.int (VStr s) = Ok z -> Py.int_of_string s = Some z.
Proof.
  cbn [Py.int]; destruct (Py.is_ascii s && Py.over_limit s); [discriminate|].
  destruct (Py.int_of_string s); congruence.
Qed.

(** [int] raises for a text that does not read as an integer. *)
Lemma int_of_text_raises (s : string) :
  Py.int_of_string s = None -> Py.int (VStr s) = Raise ValueError.
Proof.
  intros H; cbn [Py.int]; rewrite H.
  now destruct (Py.is_ascii s && Py.over_limit s).
Qed.

(** [int] with CPython 3.11: a no-break space is stripped and an
    Arabic-Indic digit is read; the separator 28 is not stripped from
    an ASCII text; 4300 digits are converted and 4301 are not. *)
Lemma int_with_cpython :
  Py.int (interp := CPython.interpreter)
    (VStr (String (ascii_of_nat 194) (String (ascii_of_nat 160) "7"))) = Ok 7
  /\ Py.int (interp := CPython.interpreter) (VStr "٧") = Ok 7
  /\ Py.int (interp := CPython.interpreter)
       (VStr (String (ascii_of_nat 28) "7")) = Raise ValueError
  /\ (exists z,
        Py.int (interp := CPython.interpreter)
          (VStr (string_of_list_ascii (repeat "9"%char 4300))) = Ok z)
  /\ Py.int (interp := CPython.interpreter)
       (VStr (string_of_list_ascii (repeat "9"%char 4301)))
     = Raise ValueError.
Proof.
  split; [vm_compute; reflexivity|].
  split; [vm_compute; reflexivity|].
  split; [vm_compute; reflexivity|].
  split; [eexists; vm_compute; reflexivity|].
  vm_compute; reflexivity.
Qed.

(** When [int] of a cell returns, the text of the cell reads as the
    same value. *)
Lemma int_of_str (v : value) (z : Z) :
  Py.int v = Ok z -> Py.int_of_string (Py.str v) = Some z.
Proof.
  destruct v as [|s|n].
  - discriminate.
  - apply int_of_text.
  - intros [= <-]; apply int_of_string_str.
Qed.

(** The code's quantity is the one the rule of the specification
    gives for the indicator. *)
Lemma stock_of_indicator (watch : Py.dict) (q : Z) :
  stock_of watch = Ok q -> quantity_of_indicator (indicator watch) = Some q.
Proof.
  unfold stock_of, quantity_of_indicator.
  destruct (String.eqb (indicator watch) ">10"); [congruence|].
  destruct (String.eqb (indicator watch) "1"); [congruence|].
  apply int_of_str.
Qed.

Lemma stock_of_raises (watch : Py.dict) :
  quantity_of_indicator (indicator watch) = None ->
  exists e, stock_of watch = Raise e.
Proof.
  intros H; destruct (stock_of watch) as [q|e] eqn:Hq; [|now exists e].
  apply stock_of_indicator in Hq; congruence.
Qed.

(** The quantity of a row is computed exactly when its cell resolves;
    a missing cell raises [TypeError], a text that [int] does not read
    [ValueError]. *)
Lemma stock_of_cases (watch : Py.dict) :
  match stock_of watch with
  | Ok _ => resolves watch
  | Raise e =>
      ~ resolves watch
      /\ ((e = TypeError /\ Py.get watch "Количество" = VNone)
          \/ (e = ValueError /\ exists s, Py.get watch "Количество" = VStr s))
  end.
Proof.
  unfold stock_of, resolves.
  destruct (String.eqb_spec (indicator watch) ">10") as [H1|H1]; [now left|].
  destruct (String.eqb_spec (indicator watch) "1") as [H2|H2];
    [right; now left|].
  destruct (Py.get watch "Количество") as [|s|z] eqn:Hget; cbn [Py.int].
  - split; [|now left].
    intros [H|[H|[[z H]|(s & H & _)]]]; congruence.
  - assert (Herr : forall e, e = ValueError ->
               (e = TypeError /\ VStr s = VNone)
               \/ (e = ValueError /\ exists s', VStr s = VStr s'))
      by (intros e ->; right; split; [reflexivity|now exists s]).
    destruct (Py.is_ascii s && Py.over_limit s) eqn:Hover.
    + split; [|now apply Herr].
      apply andb_true_iff in Hover as [Ha Hl].
      intros [H|[H|[[z H]|(s' & [= <-] & _ & H)]]];
        try contradiction; try discriminate.
      specialize (H Ha); congruence.
    + destruct (Py.int_of_string s) as [z|] eqn:Hi.
      * do 3 right; exists s; split; [reflexivity|]; split; [now exists z|].
        intros Ha; rewrite Ha in Hover; exact Hover.
      * split; [|now apply Herr].
        intros [H|[H|[[z H]|(s' & [= <-] & [z H] & _)]]];
          try contradiction; try discriminate; congruence.
  - right; right; left; now exists z.
Qed.

(** ** Membership and removal in the remote collection *)

Lemma contains_In (x : string) (l : list string) :
  Py.contains x l = true <-> In x l.
Proof.
  unfold Py.contains; rewrite existsb_exists; split.
  - intros (y & Hy & Heq); apply String.eqb_eq in Heq; now subst.
  - intros H; exists x; split; [assumption|apply String.eqb_refl].
Qed.

Lemma contains_not_In (x : string) (l : list string) :
  Py.contains x l = false <-> ~ In x l.
Proof.
  rewrite <- contains_In; destruct (Py.contains x l); split; congruence.
Qed.

(** Guarded by [in], [remove] never raises. *)
Lemma remove_contained (x : string) (l : list string) :
  Py.contains x l = true -> Py.remove x l = Ok (remove_first x l).
Proof.
  induction l as [|y l IH]; simpl; [discriminate|].
  destruct (String.eqb y x); simpl; [reflexivity|].
  intros H; now rewrite (IH H).
Qed.

Lemma remove_first_absent (x : string) (l : list string) :
  ~ In x l -> remove_first x l = l.
Proof.
  induction l as [|y l IH]; simpl; [reflexivity|]; intros H.
  destruct (String.eqb_spec y x); [tauto|]; f_equal; tauto.
Qed.

Lemma remove_first_perm (x : string) (l : list string) :
  In x l -> Permutation (x :: remove_first x l) l.
Proof.
  induction l as [|y l IH]; simpl; [contradiction|]; intros H.
  destruct (String.eqb_spec y x) as [->|Hne]; [reflexivity|].
  destruct H as [H|H]; [contradiction|].
  rewrite perm_swap; now constructor; apply IH.
Qed.

Lemma remove_first_filter (x : string) (l : list string) :
  NoDup l -> remove_first x l = filter (fun y => negb (String.eqb x y)) l.
Proof.
  induction l as [|y l IH]; simpl; [reflexivity|]; intros H.
  inversion H as [|? ? Hy Hl]; subst.
  rewrite (String.eqb_sym x y).
  destruct (String.eqb_spec y x) as [->|Hne]; simpl; [|now rewrite IH].
  rewrite <- IH by assumption; symmetry; now apply remove_first_absent.
Qed.

Lemma remove_first_In (x y : string) (l : list string) :
  In y (remove_first x l) -> In y l.
Proof.
  induction l as [|z l IH]; simpl; [tauto|].
  destruct (String.eqb z x); simpl; tauto.
Qed.

Lemma remove_first_NoDup (x : string) (l : list string) :
  NoDup l -> NoDup (remove_first x l) /\ ~ In x (remove_first x l).
Proof.
  intros H; rewrite (remove_first_filter x l H); split.
  - now apply NoDup_filter.
  - rewrite filter_In, String.eqb_refl; simpl; intros [_ F]; discriminate.
Qed.

Lemma remove_first_other (x y : string) (l : list string) :
  x <> y -> In y l -> In y (remove_first x l).
Proof.
  intros Hne; induction l as [|z l IH]; simpl; [tauto|].
  destruct (String.eqb_spec z x) as [->|Hz]; simpl; intuition congruence.
Qed.

(** ** The rows that match and the ids that remain *)

Lemma matched_rows_app (rows rows' : list Py.dict) (offer_ids : list string) :
  matched_rows (rows ++ rows') offer_ids
  = matched_rows rows offer_ids ++ matched_rows rows' (remaining rows offer_ids).
Proof.
  revert offer_ids; induction rows as [|watch rows IH]; intros ids; simpl;
    [reflexivity|].
  destruct (Py.contains (code watch) ids) eqn:Hin; simpl.
  - now rewrite IH.
  - apply contains_not_In in Hin.
    now rewrite IH, (remove_first_absent _ _ Hin).
Qed.

Lemma matched_rows_In (rows : list Py.dict) (offer_ids : list string)
  (watch : Py.dict) :
  In watch (matched_rows rows offer_ids) ->
  In watch rows /\ In (code watch) offer_ids.
Proof.
  revert offer_ids; induction rows as [|row rows IH]; intros ids; simpl;
    [tauto|].
  destruct (Py.contains (code row) ids) eqn:Hin.
  - intros [<-|H]; [split; [now left|now apply contains_In]|].
    apply IH in H as [H1 H2]; split; [now right|].
    eapply remove_first_In; eassumption.
  - intros H; apply IH in H as [H1 H2]; split; [now right|assumption].
Qed.

(** The matched codes and the remaining ids share the collection out. *)
Lemma matched_remaining_perm (rows : list Py.dict) (offer_ids : list string) :
  Permutation (map code (matched_rows rows offer_ids) ++ remaining rows offer_ids)
              offer_ids.
Proof.
  revert offer_ids; induction rows as [|watch rows IH]; intros ids; simpl;
    [reflexivity|].
  destruct (Py.contains (code watch) ids) eqn:Hin; simpl.
  - rewrite IH; apply remove_first_perm; now apply contains_In.
  - apply contains_not_In in Hin.
    rewrite <- (remove_first_absent _ _ Hin) at 3.
    rewrite (remove_first_absent _ _ Hin); apply IH.
Qed.

(** In a collection without repetition the ids that remain are those
    that no row has, in their original order. *)
Lemma remaining_unmatched (rows : list Py.dict) (offer_ids : list string) :
  NoDup offer_ids ->
  remaining rows offer_ids
  = filter (fun offer_id => negb (matched_by rows offer_id)) offer_ids.
Proof.
  revert offer_ids; induction rows as [|watch rows IH]; intros ids Hnd; simpl.
  - induction ids as [|y ids IHids]; simpl; [reflexivity|].
    inversion Hnd; subst; f_equal; auto.
  - rewrite IH by (now apply remove_first_NoDup).
    rewrite (remove_first_filter _ _ Hnd).
    clear; induction ids as [|y ids IHids]; simpl; [reflexivity|].
    destruct (String.eqb (code watch) y); simpl; [assumption|].
    destruct (matched_by rows y); simpl; now rewrite IHids.
Qed.

(** In a collection without repetition the first row of every remote
    code is matched. *)
Lemma first_row_matched (rows : list Py.dict) (offer_ids : list string)
  (offer_id : string) (watch : Py.dict) :
  In offer_id offer_ids ->
  first_row rows offer_id = Some watch ->
  In watch (matched_rows rows offer_ids) /\ code watch = offer_id.
Proof.
  unfold first_row; revert offer_ids;
    induction rows as [|row rows IH]; intros ids Hin; simpl; [discriminate|].
  destruct (String.eqb_spec (code row) offer_id) as [Heq|Hne].
  - intros [= <-]; subst offer_id.
    apply contains_In in Hin; rewrite Hin; split; [now left|reflexivity].
  - intros Hfind.
    destruct (Py.contains (code row) ids) eqn:Hrow.
    + destruct (IH (remove_first (code row) ids)) as [H1 H2];
        [now apply remove_first_other|assumption|].
      split; [now right|assumption].
    + now apply IH.
Qed.

Lemma first_row_none (rows : list Py.dict) (offer_id : string) :
  first_row rows offer_id = None -> matched_by rows offer_id = false.
Proof.
  unfold first_row, matched_by; induction rows as [|row rows IH]; simpl;
    [reflexivity|].
  destruct (String.eqb (code row) offer_id); [discriminate|assumption].
Qed.

(** ** [traverse] *)

Lemma traverse_Forall2 {A B : Type} (f : A -> result B) (l : list A)
  (bs : list B) :
  traverse f l = Ok bs <-> Forall2 (fun a b => f a = Ok b) l bs.
Proof.
  revert bs; induction l as [|a l IH]; intros bs; simpl.
  - split; [intros [= <-]; constructor|intros H; now inversion H].
  - destruct (f a) as [b|e] eqn:Hb; simpl.
    + destruct (traverse f l) as [bs'|e] eqn:Hbs; simpl.
      * split.
        -- intros [= <-]; constructor; [assumption|now apply IH].
        -- intros H; inversion H; subst.
           f_equal; f_equal; [congruence|].
           assert (Ok bs' = Ok l') as [= ->] by now apply IH.
           reflexivity.
      * split; [discriminate|].
        intros H; inversion H; subst.
        assert (Raise e = Ok l') by now apply IH. discriminate.
    + split; [discriminate|]. intros H; inversion H; congruence.
Qed.

Lemma traverse_raises {A B : Type} (f : A -> result B) (l : list A) (a : A) :
  In a l -> (exists e, f a = Raise e) -> exists e, traverse f l = Raise e.
Proof.
  intros Hin [e He]; induction l as [|x l IH]; simpl; [contradiction|].
  destruct (f x) as [b|e'] eqn:Hx; simpl; [|now exists e'].
  destruct Hin as [->|Hin]; [congruence|].
  destruct (IH Hin) as [e'' ->]; now exists e''.
Qed.

Lemma Forall2_In_left {A B : Type} (P : A -> B -> Prop) (l : list A)
  (l' : list B) (a : A) :
  Forall2 P l l' -> In a l -> exists b, P a b /\ In b l'.
Proof.
  induction 1 as [|x y l l' Hxy _ IH]; simpl; [contradiction|].
  intros [->|Hin]; [exists y; tauto|].
  destruct (IH Hin) as (b & Hb & Hin'); exists b; tauto.
Qed.

Lemma Forall2_In_right {A B : Type} (P : A -> B -> Prop) (l : list A)
  (l' : list B) (b : B) :
  Forall2 P l l' -> In b l' -> exists a, P a b /\ In a l.
Proof.
  induction 1 as [|x y l l' Hxy _ IH]; simpl; [contradiction|].
  intros [->|Hin]; [exists x; tauto|].
  destruct (IH Hin) as (a & Ha & Hin'); exists a; tauto.
Qed.

(** ** The two [create_stocks] as a traversal and a zero fill *)

Lemma seller_matched_traverse (rows : list Py.dict) (offer_ids : list string)
  (stocks : list Seller.stock_record) :
  Seller.create_stocks_matched rows offer_ids stocks
  = (records <- traverse seller_stock_of (matched_rows rows offer_ids) ;;
     Ok (stocks ++ records, remaining rows offer_ids)).
Proof.
  revert offer_ids stocks; induction rows as [|watch rows IH];
    intros ids stocks; simpl.
  - now rewrite app_nil_r.
  - fold (code watch); fold (indicator watch).
    destruct (Py.contains (code watch) ids) eqn:Hin;
      [|apply contains_not_In in Hin;
        rewrite (remove_first_absent _ _ Hin); apply IH].
    change (traverse seller_stock_of
              (watch :: matched_rows rows (remove_first (code watch) ids)))
      with (b <- seller_stock_of watch ;;
            bs <- traverse seller_stock_of
                    (matched_rows rows (remove_first (code watch) ids)) ;;
            Ok (b :: bs)).
    unfold seller_stock_of; fold (stock_of watch).
    destruct (stock_of watch) as [q|e]; simpl; [|reflexivity].
    rewrite (remove_contained _ _ Hin); simpl; rewrite IH.
    destruct (traverse _ _); simpl; [|reflexivity].
    now rewrite <- app_assoc.
Qed.

Lemma seller_missing_map (offer_ids : list string)
  (stocks : list Seller.stock_record) :
  Seller.create_stocks_missing offer_ids stocks
  = stocks ++ map (fun offer_id => seller_stock offer_id 0) offer_ids.
Proof.
  revert stocks; induction offer_ids as [|x ids IH]; intros stocks; simpl.
  - now rewrite app_nil_r.
  - rewrite IH, <- app_assoc; reflexivity.
Qed.

Lemma seller_create_stocks_traverse (rows : list Py.dict)
  (offer_ids : list string) :
  Seller.create_stocks rows offer_ids
  = (records <- traverse seller_stock_of (matched_rows rows offer_ids) ;;
     Ok (records ++ map (fun offer_id => seller_stock offer_id 0)
                        (remaining rows offer_ids),
         remaining rows offer_ids)).
Proof.
  unfold Seller.create_stocks; rewrite seller_matched_traverse.
  destruct (traverse _ _); simpl; [|reflexivity].
  now rewrite seller_missing_map.
Qed.

Lemma market_matched_traverse (date warehouse_id : string)
  (rows : list Py.dict) (offer_ids : list string)
  (stocks : list Market.stock_record) :
  Market.create_stocks_matched date rows offer_ids warehouse_id stocks
  = (records <- traverse (market_stock_of date warehouse_id)
                         (matched_rows rows offer_ids) ;;
     Ok (stocks ++ records, remaining rows offer_ids)).
Proof.
  revert offer_ids stocks; induction rows as [|watch rows IH];
    intros ids stocks; simpl.
  - now rewrite app_nil_r.
  - fold (code watch); fold (indicator watch).
    destruct (Py.contains (code watch) ids) eqn:Hin;
      [|apply contains_not_In in Hin;
        rewrite (remove_first_absent _ _ Hin); apply IH].
    change (traverse (market_stock_of date warehouse_id)
              (watch :: matched_rows rows (remove_first (code watch) ids)))
      with (b <- market_stock_of date warehouse_id watch ;;
            bs <- traverse (market_stock_of date warehouse_id)
                    (matched_rows rows (remove_first (code watch) ids)) ;;
            Ok (b :: bs)).
    unfold market_stock_of; fold (stock_of watch).
    destruct (stock_of watch) as [q|e]; simpl; [|reflexivity].
    rewrite (remove_contained _ _ Hin); simpl; rewrite IH.
    destruct (traverse _ _); simpl; [|reflexivity].
    now rewrite <- app_assoc.
Qed.

Lemma market_missing_map (date warehouse_id : string)
  (offer_ids : list string) (stocks : list Market.stock_record) :
  Market.create_stocks_missing date offer_ids warehouse_id stocks
  = stocks ++ map (fun offer_id => market_stock date warehouse_id offer_id 0)
                  offer_ids.
Proof.
  revert stocks; induction offer_ids as [|x ids IH]; intros stocks; simpl.
  - now rewrite app_nil_r.
  - rewrite IH, <- app_assoc; reflexivity.
Qed.

Lemma market_create_stocks_traverse (date warehouse_id : string)
  (rows : list Py.dict) (offer_ids : list string) :
  Market.create_stocks date rows offer_ids warehouse_id
  = (records <- traverse (market_stock_of date warehouse_id)
                         (matched_rows rows offer_ids) ;;
     Ok (records ++ map (fun offer_id => market_stock date warehouse_id offer_id 0)
                        (remaining rows offer_ids),
         remaining rows offer_ids)).
Proof.
  unfold Market.create_stocks; rewrite market_matched_traverse.
  destruct (traverse _ _); simpl; [|reflexivity].
  now rewrite market_missing_map.
Qed.

Lemma Forall2_map_right {A B C : Type} (P : A -> B -> Prop)
  (Q : A -> C -> Prop) (f : B -> C) (l : list A) (l' : list B) :
  (forall a b, P a b -> Q a (f b)) ->
  Forall2 P l l' -> Forall2 Q l (map f l').
Proof. intros HPQ; induction 1; simpl; constructor; auto. Qed.

Lemma seller_create_stocks_built (rows : list Py.dict)
  (offer_ids left : list string) (stocks : list Seller.stock_record) :
  Seller.create_stocks rows offer_ids = Ok (stocks, left) ->
  left = remaining rows offer_ids
  /\ stocks_built rows offer_ids (map seller_view stocks).
Proof.
  rewrite seller_create_stocks_traverse.
  destruct (traverse _ _) as [records|e] eqn:Htr; simpl; [|discriminate].
  intros [= <- <-]; split; [reflexivity|].
  exists (map seller_view records); split.
  - apply traverse_Forall2 in Htr.
    eapply Forall2_map_right; [|exact Htr].
    intros watch record; unfold seller_stock_of.
    destruct (stock_of watch) as [q|]; simpl; [|discriminate].
    intros [= <-]; now exists q.
  - now rewrite map_app, map_map.
Qed.

Lemma market_create_stocks_built (date warehouse_id : string)
  (rows : list Py.dict) (offer_ids left : list string)
  (stocks : list Market.stock_record) :
  Market.create_stocks date rows offer_ids warehouse_id = Ok (stocks, left) ->
  left = remaining rows offer_ids
  /\ stocks_built rows offer_ids (map market_view stocks).
Proof.
  rewrite market_create_stocks_traverse.
  destruct (traverse _ _) as [records|e] eqn:Htr; simpl; [|discriminate].
  intros [= <- <-]; split; [reflexivity|].
  exists (map market_view records); split.
  - apply traverse_Forall2 in Htr.
    eapply Forall2_map_right; [|exact Htr].
    intros watch record; unfold market_stock_of.
    destruct (stock_of watch) as [q|]; simpl; [|discriminate].
    intros [= <-]; now exists q.
  - now rewrite map_app, map_map.
Qed.

Lemma stocks_built_reconciled (rows : list Py.dict) (offer_ids : list string)
  (stocks : list (string * Z)) :
  NoDup offer_ids ->
  stocks_built rows offer_ids stocks ->
  reconciled rows offer_ids stocks.
Proof.
  intros Hnd (records & Hrec & ->).
  assert (Hids : Permutation
                   (map fst (records ++ map (fun offer_id => (offer_id, 0))
                                            (remaining rows offer_ids)))
                   offer_ids).
  { rewrite map_app, map_map, map_id.
    replace (map fst records) with (map code (matched_rows rows offer_ids));
      [apply matched_remaining_perm|].
    clear -Hrec; induction Hrec as [|w r l l' (q & _ & ->) _ IH]; simpl;
      [reflexivity|now rewrite IH]. }
  split; [exact Hids|]; split; [|split].
  - eapply Permutation_NoDup; [symmetry; exact Hids|exact Hnd].
  - intros offer_id Hin.
    destruct (first_row rows offer_id) as [watch|] eqn:Hfirst.
    + destruct (first_row_matched _ _ _ _ Hin Hfirst) as [Hm <-].
      destruct (Forall2_In_left _ _ _ _ Hrec Hm) as (r & (q & Hq & ->) & Hr).
      exists q; split; [now apply stock_of_indicator|].
      apply in_or_app; now left.
    + apply in_or_app; right.
      apply (in_map (fun offer_id => (offer_id, 0))).
      rewrite (remaining_unmatched _ _ Hnd); apply filter_In.
      split; [assumption|now rewrite (first_row_none _ _ Hfirst)].
  - intros watch _ Hout Hin; apply Hout.
    eapply Permutation_in; eassumption.
Qed.

(** ** Reconciliation of stocks *)

(** C1, for remote ids without repetition: the list each [create_stocks]
    returns has exactly one record per remote id and none for any other
    id; an id that rows have carries the quantity resolved for the first
    such row, any other id carries 0. *)
Theorem create_stocks_reconciles (rows : list Py.dict)
  (offer_ids : list string) :
  NoDup offer_ids ->
  (forall stocks left,
     Seller.create_stocks rows offer_ids = Ok (stocks, left) ->
     reconciled rows offer_ids (map seller_view stocks))
  /\ (forall date warehouse_id stocks left,
        Market.create_stocks date rows offer_ids warehouse_id = Ok (stocks, left) ->
        reconciled rows offer_ids (map market_view stocks)).
Proof.
  intros Hnd; split.
  - intros stocks left H; apply seller_create_stocks_built in H as [_ H].
    now apply stocks_built_reconciled.
  - intros date wh stocks left H.
    apply market_create_stocks_built in H as [_ H].
    now apply stocks_built_reconciled.
Qed.

Lemma NoDup_XYZ : NoDup ["X"; "Y"; "Z"].
Proof.
  repeat constructor; simpl; intuition discriminate.
Defined.

End WithInterpreter.

Section Examples.

#[local] Existing Instance CPython.interpreter.

Lemma create_stocks_reconciles_witness :
  reconciled [[("Код", VStr "X"); ("Количество", VStr ">10")]]
             ["X"; "Y"; "Z"]
             [("X", 100); ("Y", 0); ("Z", 0)].
Proof.
  exact (proj1 (create_stocks_reconciles
                  [[("Код", VStr "X"); ("Количество", VStr ">10")]]
                  ["X"; "Y"; "Z"] NoDup_XYZ)
               _ _ eq_refl).
Defined.

(** A remote id listed twice gets two records, so the list returned
    is not reconciled in the sense above. *)
Lemma create_stocks_repeats_duplicate :
  exists stocks left,
    Seller.create_stocks [] ["A"; "A"] = Ok (stocks, left)
    /\ stocks = [seller_stock "A" 0; seller_stock "A" 0]
    /\ ~ reconciled [] ["A"; "A"] (map seller_view stocks).
Proof.
  do 2 eexists; split; [reflexivity|]; split; [reflexivity|].
  intros (_ & Hnd & _); simpl in Hnd.
  inversion Hnd as [|? ? Hin _]; apply Hin; now left.
Qed.

End Examples.

Section WithInterpreter.

Context {interp : Interpreter}.

(** Every matched row raises or contributes its record. *)
Lemma matched_row_in_turn (before after : list Py.dict) (watch : Py.dict)
  (offer_ids : list string) :
  In (code watch) (remaining before offer_ids) ->
  In watch (matched_rows (before ++ watch :: after) offer_ids).
Proof.
  intros Hin; rewrite matched_rows_app; apply in_or_app; right; simpl.
  apply contains_In in Hin; rewrite Hin; now left.
Qed.

Lemma remaining_app (rows rows' : list Py.dict) (offer_ids : list string) :
  remaining (rows ++ rows') offer_ids
  = remaining rows' (remaining rows offer_ids).
Proof.
  revert offer_ids; induction rows as [|watch rows IH]; intros ids; simpl;
    [reflexivity|apply IH].
Qed.

(** A row that does not find its code when its turn comes leaves the
    rows that match and the collection as they are without it. *)
Lemma unmatched_row_skipped (before after : list Py.dict) (watch : Py.dict)
  (offer_ids : list string) :
  ~ In (code watch) (remaining before offer_ids) ->
  matched_rows (before ++ watch :: after) offer_ids
  = matched_rows (before ++ after) offer_ids
  /\ remaining (before ++ watch :: after) offer_ids
     = remaining (before ++ after) offer_ids.
Proof.
  intros Hout; rewrite !matched_rows_app, !remaining_app; simpl.
  rewrite (remove_first_absent _ _ Hout).
  apply contains_not_In in Hout; now rewrite Hout.
Qed.

(** C2.  A row that finds its code in the remote collection when its
    turn comes, the rows before it having removed theirs, gets a
    record with the quantity of the rule: 100 for [">10"], 0 for
    ["1"], otherwise the integer that the interpreter reads its
    indicator as; the call raises when the indicator reads as no
    integer, and whenever the quantity does not resolve, as for a
    number with more digits than the interpreter converts.  A row that
    does not find its code then is passed over, whatever its quantity:
    the call goes as it does without the row. *)
Theorem create_stocks_quantity (before after : list Py.dict)
  (watch : Py.dict) (offer_ids : list string) :
  (In (code watch) (remaining before offer_ids) ->
   match quantity_of_indicator (indicator watch) with
   | Some q =>
       (forall stocks left,
          Seller.create_stocks (before ++ watch :: after) offer_ids
          = Ok (stocks, left) ->
          In (seller_stock (code watch) q) stocks)
       /\ (forall date warehouse_id stocks left,
             Market.create_stocks date (before ++ watch :: after) offer_ids
               warehouse_id = Ok (stocks, left) ->
             In (market_stock date warehouse_id (code watch) q) stocks)
   | None =>
       (exists e,
          Seller.create_stocks (before ++ watch :: after) offer_ids = Raise e)
       /\ (forall date warehouse_id,
             exists e,
               Market.create_stocks date (before ++ watch :: after) offer_ids
                 warehouse_id = Raise e)
   end
   /\ (~ resolves watch ->
       (exists e,
          Seller.create_stocks (before ++ watch :: after) offer_ids = Raise e)
       /\ (forall date warehouse_id,
             exists e,
               Market.create_stocks date (before ++ watch :: after) offer_ids
                 warehouse_id = Raise e)))
  /\ (~ In (code watch) (remaining before offer_ids) ->
      Seller.create_stocks (before ++ watch :: after) offer_ids
      = Seller.create_stocks (before ++ after) offer_ids
      /\ (forall date warehouse_id,
            Market.create_stocks date (before ++ watch :: after) offer_ids
              warehouse_id
            = Market.create_stocks date (before ++ after) offer_ids
                warehouse_id))
  /\ quantity_of_indicator ">10" = Some 100
  /\ quantity_of_indicator "1" = Some 0
  /\ quantity_of_indicator "7" = Some 7.
Proof.
  split; [|split; [|repeat split]].
  2: { intros Hout.
       destruct (unmatched_row_skipped before after watch offer_ids Hout)
         as [Hm Hr].
       split; [|intros date wh].
       - now rewrite !seller_create_stocks_traverse, Hm, Hr.
       - now rewrite !market_create_stocks_traverse, Hm, Hr. }
  intros Hin.
  pose proof (matched_row_in_turn before after watch offer_ids Hin) as Hm.
  assert (Hraise : forall e, stock_of watch = Raise e ->
            (exists e,
               Seller.create_stocks (before ++ watch :: after) offer_ids
               = Raise e)
            /\ (forall date warehouse_id,
                  exists e,
                    Market.create_stocks date (before ++ watch :: after)
                      offer_ids warehouse_id = Raise e)).
  { intros e He; split.
    - rewrite seller_create_stocks_traverse.
      destruct (traverse_raises seller_stock_of _ watch Hm) as [e' ->];
        [|now exists e'].
      exists e; unfold seller_stock_of; now rewrite He.
    - intros date wh; rewrite market_create_stocks_traverse.
      destruct (traverse_raises (market_stock_of date wh) _ watch Hm)
        as [e' ->]; [|now exists e'].
      exists e; unfold market_stock_of; now rewrite He. }
  split.
  2: { intros Hno; pose proof (stock_of_cases watch) as Hc.
       destruct (stock_of watch) as [q|e] eqn:Hs; [contradiction|].
       now apply (Hraise e). }
  destruct (quantity_of_indicator (indicator watch)) as [q|] eqn:Hq.
  - split.
    + intros stocks left; rewrite seller_create_stocks_traverse.
      destruct (traverse _ _) as [records|] eqn:Htr; simpl; [|discriminate].
      intros [= <- _]; apply in_or_app; left.
      apply traverse_Forall2 in Htr.
      destruct (Forall2_In_left _ _ _ _ Htr Hm) as (r & Hr & Hrin).
      unfold seller_stock_of in Hr.
      destruct (stock_of watch) as [q'|] eqn:Hq'; [|discriminate Hr].
      apply stock_of_indicator in Hq'; rewrite Hq in Hq'.
      injection Hq' as <-; simpl in Hr; now injection Hr as <-.
    + intros date wh stocks left; rewrite market_create_stocks_traverse.
      destruct (traverse _ _) as [records|] eqn:Htr; simpl; [|discriminate].
      intros [= <- _]; apply in_or_app; left.
      apply traverse_Forall2 in Htr.
      destruct (Forall2_In_left _ _ _ _ Htr Hm) as (r & Hr & Hrin).
      unfold market_stock_of in Hr.
      destruct (stock_of watch) as [q'|] eqn:Hq'; [|discriminate Hr].
      apply stock_of_indicator in Hq'; rewrite Hq in Hq'.
      injection Hq' as <-; simpl in Hr; now injection Hr as <-.
  - destruct (stock_of_raises watch Hq) as [e He]; now apply (Hraise e).
Qed.

End WithInterpreter.

Section Examples.

#[local] Existing Instance CPython.interpreter.

Lemma create_stocks_quantity_witness :
  In (seller_stock "123" 7) [seller_stock "123" 7; seller_stock "124" 0].
Proof.
  exact (proj1 (proj1 (proj1 (create_stocks_quantity
                                [] []
                                [("Код", VInt 123); ("Количество", VInt 7)]
                                ["123"; "124"])
                             (or_introl eq_refl)))
               _ _ eq_refl).
Defined.

(** The second of two rows with one code has its code in the
    collection that was passed, but finds it removed by the first: no
    record carries the quantity of the second row. *)
Lemma create_stocks_skips_repeated_code :
  In (code [("Код", VStr "A"); ("Количество", VStr "7")]) ["A"]
  /\ quantity_of_indicator
       (indicator [("Код", VStr "A"); ("Количество", VStr "7")]) = Some 7
  /\ Seller.create_stocks
       [[("Код", VStr "A"); ("Количество", VStr "5")];
        [("Код", VStr "A"); ("Количество", VStr "7")]]
       ["A"]
     = Ok ([seller_stock "A" 5], [])
  /\ Market.create_stocks "2024-01-01T00:00:00Z"
       [[("Код", VStr "A"); ("Количество", VStr "5")];
        [("Код", VStr "A"); ("Количество", VStr "7")]]
       ["A"] "1"
     = Ok ([market_stock "2024-01-01T00:00:00Z" "1" "A" 5], [])
  /\ ~ In (seller_stock "A" 7) [seller_stock "A" 5]
  /\ ~ In (market_stock "2024-01-01T00:00:00Z" "1" "A" 7)
          [market_stock "2024-01-01T00:00:00Z" "1" "A" 5].
Proof.
  split; [now left|]; split; [reflexivity|].
  split; [reflexivity|]; split; [reflexivity|].
  split; intros [H|[]]; discriminate H.
Qed.

End Examples.

Section WithInterpreter.

Context {interp : Interpreter}.

(** C8, for remote ids without repetition: when [create_stocks]
    returns, the collection holds the ids that no row has, and only
    those, in their original order. *)
Theorem create_stocks_leaves_unmatched (rows : list Py.dict)
  (offer_ids : list string) :
  NoDup offer_ids ->
  (forall stocks left,
     Seller.create_stocks rows offer_ids = Ok (stocks, left) ->
     left = filter (fun offer_id => negb (matched_by rows offer_id)) offer_ids)
  /\ (forall date warehouse_id stocks left,
        Market.create_stocks date rows offer_ids warehouse_id = Ok (stocks, left) ->
        left = filter (fun offer_id => negb (matched_by rows offer_id)) offer_ids).
Proof.
  intros Hnd; split.
  - intros stocks left H; apply seller_create_stocks_built in H as [-> _].
    now apply remaining_unmatched.
  - intros date wh stocks left H.
    apply market_create_stocks_built in H as [-> _].
    now apply remaining_unmatched.
Qed.

End WithInterpreter.

Section Examples.

#[local] Existing Instance CPython.interpreter.

Lemma create_stocks_leaves_unmatched_witness :
  ["Y"; "Z"]
  = filter (fun offer_id =>
              negb (matched_by [[("Код", VStr "X"); ("Количество", VStr ">10")]]
                               offer_id))
           ["X"; "Y"; "Z"].
Proof.
  exact (proj1 (create_stocks_leaves_unmatched
                  [[("Код", VStr "X"); ("Количество", VStr ">10")]]
                  ["X"; "Y"; "Z"] NoDup_XYZ)
               _ _ eq_refl).
Defined.

(** Of a remote id listed twice one occurrence stays in the collection
    although a row has matched it. *)
Lemma create_stocks_keeps_duplicate :
  exists stocks left,
    Seller.create_stocks [[("Код", VStr "A"); ("Количество", VStr "5")]]
                         ["A"; "A"] = Ok (stocks, left)
    /\ left = ["A"]
    /\ matched_by [[("Код", VStr "A"); ("Количество", VStr "5")]] "A" = true
    /\ left <> filter (fun offer_id =>
                         negb (matched_by [[("Код", VStr "A");
                                            ("Количество", VStr "5")]]
                                          offer_id))
                      ["A"; "A"].
Proof.
  do 2 eexists; split; [reflexivity|]; split; [reflexivity|].
  split; [reflexivity|discriminate].
Qed.

End Examples.

Section WithInterpreter.

Context {interp : Interpreter}.

(** Whatever the collection, [create_stocks] leaves it as the removals
    of the rows, taken in order, make it. *)
Lemma create_stocks_leaves_remaining (rows : list Py.dict)
  (offer_ids left : list string) (stocks : list Seller.stock_record) :
  Seller.create_stocks rows offer_ids = Ok (stocks, left) ->
  left = remaining rows offer_ids.
Proof. intros H; now apply seller_create_stocks_built in H. Qed.

(** ** Reconciliation of prices *)

Lemma seller_prices_traverse (rows : list Py.dict) (offer_ids : list string)
  (prices : list Seller.price_record) :
  Seller.create_prices_from rows offer_ids prices
  = (records <- traverse seller_price_of (filter (in_remote offer_ids) rows) ;;
     Ok (prices ++ records)).
Proof.
  revert prices; induction rows as [|watch rows IH]; intros prices; simpl.
  - now rewrite app_nil_r.
  - fold (code watch); unfold in_remote at 1.
    destruct (Py.contains (code watch) offer_ids); [|apply IH].
    change (traverse seller_price_of (watch :: filter (in_remote offer_ids) rows))
      with (b <- seller_price_of watch ;;
            bs <- traverse seller_price_of (filter (in_remote offer_ids) rows) ;;
            Ok (b :: bs)).
    unfold seller_price_of at 1.
    destruct (Seller.price_conversion _) as [converted|e]; simpl; [|reflexivity].
    rewrite IH; destruct (traverse _ _); simpl; [|reflexivity].
    now rewrite <- app_assoc.
Qed.

Lemma market_prices_traverse (rows : list Py.dict) (offer_ids : list string)
  (prices : list Market.price_record) :
  Market.create_prices_from rows offer_ids prices
  = (records <- traverse market_price_of (filter (in_remote offer_ids) rows) ;;
     Ok (prices ++ records)).
Proof.
  revert prices; induction rows as [|watch rows IH]; intros prices; simpl.
  - now rewrite app_nil_r.
  - fold (code watch); unfold in_remote at 1.
    destruct (Py.contains (code watch) offer_ids); [|apply IH].
    change (traverse market_price_of (watch :: filter (in_remote offer_ids) rows))
      with (b <- market_price_of watch ;;
            bs <- traverse market_price_of (filter (in_remote offer_ids) rows) ;;
            Ok (b :: bs)).
    unfold market_price_of at 1.
    destruct (Seller.price_conversion _) as [converted|e]; simpl; [|reflexivity].
    destruct (Py.is_ascii converted && Py.over_limit converted); simpl;
      [reflexivity|].
    destruct (Py.int_of_string converted) as [value|]; simpl; [|reflexivity].
    rewrite IH; destruct (traverse _ _); simpl; [|reflexivity].
    now rewrite <- app_assoc.
Qed.

Lemma seller_price_of_for (watch : Py.dict) (p : Seller.price_record) :
  seller_price_of watch = Ok p <-> seller_price_for watch p.
Proof.
  unfold seller_price_of, seller_price_for.
  destruct (Seller.price_conversion _) as [converted|e]; simpl; split.
  - intros [= <-]; now exists converted.
  - now intros (c & [= <-] & ->).
  - discriminate.
  - intros (c & H & _); discriminate H.
Qed.

Lemma market_price_of_for (watch : Py.dict) (p : Market.price_record) :
  market_price_of watch = Ok p <-> market_price_for watch p.
Proof.
  unfold market_price_of, market_price_for.
  destruct (Seller.price_conversion _) as [converted|e]; cbn [bind]; split.
  - destruct (Py.int (VStr converted)) as [value|] eqn:Hv; cbn [bind];
      [|discriminate].
    intros [= <-]; now exists converted, value.
  - intros (c & v & [= <-] & -> & ->); reflexivity.
  - discriminate.
  - intros (c & v & H & _); discriminate H.
Qed.

Lemma Forall2_iff {A B : Type} (P Q : A -> B -> Prop) (l : list A)
  (l' : list B) :
  (forall a b, P a b <-> Q a b) -> Forall2 P l l' <-> Forall2 Q l l'.
Proof.
  intros HPQ; split; intros H; (eapply Forall2_impl; [|exact H]);
    intros a b; apply HPQ.
Qed.

(** C7: each [create_prices] returns a list exactly when the price of
    every row whose code is remote converts, and the list then holds, in
    the order of the rows, one record per such row, carrying its
    normalised price, and nothing else: no record for a row whose code
    is not remote and none for a remote id that no row has. *)
Theorem create_prices_matched_rows (rows : list Py.dict)
  (offer_ids : list string) :
  (forall prices,
     Seller.create_prices rows offer_ids = Ok prices
     <-> Forall2 seller_price_for (filter (in_remote offer_ids) rows) prices)
  /\ (forall prices,
        Market.create_prices rows offer_ids = Ok prices
        <-> Forall2 market_price_for (filter (in_remote offer_ids) rows) prices)
  /\ Seller.create_prices
       [[("Код", VStr "A"); ("Цена", VStr "100.00")];
        [("Код", VStr "B"); ("Цена", VStr "200.00")]]
       ["A"]
     = Ok [{| Seller.auto_action_enabled := "UNKNOWN";
              Seller.currency_code := "RUB";
              Seller.price_offer_id := "A";
              Seller.old_price := "0";
              Seller.price := "100" |}]
  /\ Market.create_prices
       [[("Код", VStr "A"); ("Цена", VStr "100.00")];
        [("Код", VStr "B"); ("Цена", VStr "200.00")]]
       ["A"]
     = Ok [{| Market.id := "A";
              Market.price := {| Market.value_ := 100;
                                 Market.currencyId := "RUR" |} |}].
Proof.
  split; [|split; [|split; [reflexivity|by_evaluation]]].
  - intros prices; unfold Seller.create_prices; rewrite seller_prices_traverse.
    rewrite <- (Forall2_iff _ _ _ _ seller_price_of_for), <- traverse_Forall2.
    destruct (traverse _ _); simpl; split; congruence.
  - intros prices; unfold Market.create_prices; rewrite market_prices_traverse.
    rewrite <- (Forall2_iff _ _ _ _ market_price_of_for), <- traverse_Forall2.
    destruct (traverse _ _); simpl; split; congruence.
Qed.

End WithInterpreter.

Section Examples.

#[local] Existing Instance CPython.interpreter.

Lemma create_prices_matched_rows_witness :
  Forall2 seller_price_for
    [[("Код", VStr "A"); ("Цена", VStr "5'990.00 руб.")]]
    [{| Seller.auto_action_enabled := "UNKNOWN";
        Seller.currency_code := "RUB";
        Seller.price_offer_id := "A";
        Seller.old_price := "0";
        Seller.price := "5990" |}].
Proof.
  exact (proj1 (proj1 (create_prices_matched_rows
                         [[("Код", VStr "A"); ("Цена", VStr "5'990.00 руб.")];
                          [("Код", VStr "B"); ("Цена", VStr "200.00")]]
                         ["A"; "C"])
                      _)
               eq_refl).
Defined.

End Examples.

Section WithInterpreter.

Context {interp : Interpreter}.

(** ** The listing loops *)

Section SellerListingFacts.

Context {W : Type}.
Variable post_product_list :
  string -> string -> string -> W -> response Seller.product_page * W.
Variables client_id seller_token : string.

Local Abbreviation answers :=
  (seller_answers post_product_list client_id seller_token).
Local Abbreviation loop fuel :=
  (Seller.get_offer_ids_pages post_product_list fuel client_id seller_token).

Lemma seller_loop_runs (pages : list Seller.product_page) :
  forall fuel last_id product_list w w',
    answers last_id w pages w' ->
    seller_stops_at_last (Py.len product_list) pages ->
    (length pages <= fuel)%nat ->
    loop fuel last_id product_list w
    = Some (Ok (product_list ++ concat (map Seller.items pages)), w').
Proof.
  induction pages as [|some_prod later IH];
    intros fuel last_id product_list w w' Hans Hstop Hfuel;
    [contradiction|].
  destruct fuel as [|fuel]; [simpl in Hfuel; lia|].
  inversion Hans as [|? ? ? w1 ? ? Hget Hlater]; subst.
  simpl; rewrite Hget.
  assert (Hlen : Py.len (product_list ++ Seller.items some_prod)
                 = Py.len product_list + Py.len (Seller.items some_prod))
    by (unfold Py.len; rewrite length_app; lia).
  rewrite Hlen; simpl in Hstop.
  destruct later as [|next later].
  - rewrite Hstop, Z.eqb_refl; inversion Hlater; subst.
    simpl; now rewrite app_nil_r.
  - destruct Hstop as [Hne Hstop].
    destruct (Z.eqb_spec (Seller.total some_prod)
                (Py.len product_list + Py.len (Seller.items some_prod)));
      [contradiction|].
    rewrite (IH fuel _ _ _ w' Hlater); [|now rewrite Hlen|simpl in *; lia].
    now rewrite <- app_assoc.
Qed.

Lemma seller_loop_returned (fuel : nat) :
  forall last_id product_list w w' all,
    loop fuel last_id product_list w = Some (Ok all, w') ->
    exists pages,
      answers last_id w pages w'
      /\ seller_stops_at_last (Py.len product_list) pages
      /\ (length pages <= fuel)%nat
      /\ all = product_list ++ concat (map Seller.items pages).
Proof.
  induction fuel as [|fuel IH]; intros last_id product_list w w' all;
    [discriminate|].
  simpl.
  destruct (Seller.get_product_list _ _ _ _ w) as [[some_prod|e] w1] eqn:Hget;
    [|discriminate].
  assert (Hlen : Py.len (product_list ++ Seller.items some_prod)
                 = Py.len product_list + Py.len (Seller.items some_prod))
    by (unfold Py.len; rewrite length_app; lia).
  destruct (Z.eqb_spec (Seller.total some_prod)
              (Py.len (product_list ++ Seller.items some_prod))) as [Heq|Hne].
  - intros [= <- <-]; exists [some_prod]; simpl.
    split; [econstructor; [exact Hget|constructor]|].
    split; [lia|split; [lia|now rewrite app_nil_r]].
  - intros Hrest; apply IH in Hrest as (pages & Hans & Hstop & Hfuel & ->).
    exists (some_prod :: pages); split; [econstructor; eassumption|].
    split; [|split; [simpl; lia|simpl; now rewrite app_assoc]].
    simpl; rewrite <- Hlen.
    destruct pages; [contradiction|split; assumption].
Qed.

End SellerListingFacts.

Section MarketListingFacts.

Context {W : Type}.
Variable get_offer_mapping_entries :
  string -> string -> string -> W -> response Market.product_page * W.
Variables campaign_id market_token : string.

Local Abbreviation answers :=
  (market_answers get_offer_mapping_entries campaign_id market_token).
Local Abbreviation loop fuel :=
  (Market.get_offer_ids_pages get_offer_mapping_entries fuel campaign_id
     market_token).

Lemma market_loop_runs (pages : list Market.product_page) :
  forall fuel page product_list w w',
    answers page w pages w' ->
    market_stops_at_last pages ->
    (length pages <= fuel)%nat ->
    loop fuel page product_list w
    = Some (Ok (product_list ++ concat (map Market.offerMappingEntries pages)),
            w').
Proof.
  induction pages as [|some_prod later IH];
    intros fuel page product_list w w' Hans Hstop Hfuel; [contradiction|].
  destruct fuel as [|fuel]; [simpl in Hfuel; lia|].
  inversion Hans as [|? ? ? w1 ? ? Hget Hlater]; subst.
  simpl; rewrite Hget; fold (next_page some_prod); simpl in Hstop.
  destruct later as [|next later].
  - rewrite Hstop; inversion Hlater; subst; simpl; now rewrite app_nil_r.
  - destruct Hstop as [Hne Hstop]; rewrite Hne.
    rewrite (IH fuel _ _ _ w' Hlater); [|assumption|simpl in *; lia].
    now rewrite <- app_assoc.
Qed.

Lemma market_loop_returned (fuel : nat) :
  forall page product_list w w' all,
    loop fuel page product_list w = Some (Ok all, w') ->
    exists pages,
      answers page w pages w'
      /\ market_stops_at_last pages
      /\ (length pages <= fuel)%nat
      /\ all = product_list ++ concat (map Market.offerMappingEntries pages).
Proof.
  induction fuel as [|fuel IH]; intros page product_list w w' all;
    [discriminate|].
  simpl.
  destruct (Market.get_product_list _ _ _ _ w) as [[some_prod|e] w1] eqn:Hget;
    [|discriminate].
  fold (next_page some_prod).
  destruct (Market.falsy (next_page some_prod)) eqn:Hstop.
  - intros [= <- <-]; exists [some_prod]; simpl.
    split; [econstructor; [exact Hget|constructor]|].
    split; [assumption|split; [lia|now rewrite app_nil_r]].
  - intros Hrest; apply IH in Hrest as (pages & Hans & Hlast & Hfuel & ->).
    exists (some_prod :: pages); split; [econstructor; eassumption|].
    split; [|split; [simpl; lia|simpl; now rewrite app_assoc]].
    simpl; destruct pages; [contradiction|split; assumption].
Qed.

End MarketListingFacts.

(** C9: each [get_offer_ids] returns exactly when the marketplace
    answers a run of pages at the last of which, and at none before,
    the loop's exit test holds (the items received number the reported
    total for Ozon; the next-page token is missing or empty for Yandex
    Market); it has then made one request per page and returns the
    identifiers of all the pages in the order received. *)
Theorem get_offer_ids_lists_every_page :
  (forall (W : Type) post_product_list client_id seller_token
          (fuel : nat) (w w' : W) (offer_ids : list string),
     Seller.get_offer_ids post_product_list fuel client_id seller_token w
     = Some (Ok offer_ids, w')
     <-> exists pages,
           seller_answers post_product_list client_id seller_token "" w pages w'
           /\ seller_stops_at_last 0 pages
           /\ (length pages <= fuel)%nat
           /\ offer_ids = seller_ids pages)
  /\ (forall (W : Type) get_offer_mapping_entries campaign_id market_token
             (fuel : nat) (w w' : W) (offer_ids : list string),
        Market.get_offer_ids get_offer_mapping_entries fuel campaign_id
          market_token w = Some (Ok offer_ids, w')
        <-> exists pages,
              market_answers get_offer_mapping_entries campaign_id market_token
                "" w pages w'
              /\ market_stops_at_last pages
              /\ (length pages <= fuel)%nat
              /\ offer_ids = market_ids pages).
Proof.
  split; intros W get client token fuel w w' offer_ids; split.
  - unfold Seller.get_offer_ids.
    destruct (Seller.get_offer_ids_pages _ _ _ _ _ _ _)
      as [[[all|e] w1]|] eqn:Hloop; try discriminate.
    intros [= <- <-].
    apply seller_loop_returned in Hloop as (pages & Hans & Hstop & Hfuel & ->).
    exists pages; repeat split; assumption.
  - intros (pages & Hans & Hstop & Hfuel & ->); unfold Seller.get_offer_ids.
    now rewrite (seller_loop_runs _ _ _ pages fuel "" [] w w').
  - unfold Market.get_offer_ids.
    destruct (Market.get_offer_ids_pages _ _ _ _ _ _ _)
      as [[[all|e] w1]|] eqn:Hloop; try discriminate.
    intros [= <- <-].
    apply market_loop_returned in Hloop as (pages & Hans & Hstop & Hfuel & ->).
    exists pages; repeat split; assumption.
  - intros (pages & Hans & Hstop & Hfuel & ->); unfold Market.get_offer_ids.
    now rewrite (market_loop_runs _ _ _ pages fuel "" [] w w').
Qed.

End WithInterpreter.

Section Examples.

#[local] Existing Instance CPython.interpreter.

Lemma get_offer_ids_lists_every_page_witness :
  exists pages,
    seller_answers sample_product_list "id" "token" "" 0%nat pages 2%nat
    /\ seller_stops_at_last 0 pages
    /\ (length pages <= 5)%nat
    /\ ["X"; "Y"; "Z"] = seller_ids pages.
Proof.
  exact (proj1 (proj1 get_offer_ids_lists_every_page nat sample_product_list
                      "id" "token" 5%nat 0%nat 2%nat ["X"; "Y"; "Z"])
               eq_refl).
Defined.

End Examples.

Section WithInterpreter.

Context {interp : Interpreter}.

(** ** Uploading the stocks *)

(** The records [create_stocks] of market.py builds have one item each,
    so the filter of [upload_stocks] raises nothing. *)
Lemma market_filter_not_empty (date warehouse_id : string)
  (rows : list Py.dict) (offer_ids left : list string)
  (stocks : list Market.stock_record) :
  Market.create_stocks date rows offer_ids warehouse_id = Ok (stocks, left) ->
  Py.filter (fun stock =>
               first <- Py.getitem (Market.stock_items stock) 0 ;;
               Ok (negb (Market.count first =? 0)))
            stocks
  = Ok (filter (fun stock => negb (market_quantity stock =? 0)) stocks).
Proof.
  rewrite market_create_stocks_traverse.
  destruct (traverse _ _) as [records|] eqn:Htr; simpl; [|discriminate].
  intros [= <- _]; apply traverse_Forall2 in Htr.
  assert (Hone : Forall (fun stock => exists first,
                             Market.stock_items stock = [first])
                   (records ++ map (fun offer_id =>
                                      market_stock date warehouse_id offer_id 0)
                                   (remaining rows offer_ids))).
  { apply Forall_app; split; apply Forall_forall.
    - intros stock Hin.
      destruct (Forall2_In_right _ _ _ _ Htr Hin) as (watch & Hw & _).
      unfold market_stock_of in Hw.
      destruct (stock_of watch); simpl in Hw; [|discriminate].
      injection Hw as <-; now eexists.
    - intros stock Hin; apply in_map_iff in Hin as (x & <- & _); now eexists. }
  induction Hone as [|stock l [first Hfirst] _ IH]; simpl; [reflexivity|].
  rewrite IH; unfold market_quantity, Py.getitem; rewrite Hfirst; reflexivity.
Qed.

(** C10: [upload_stocks] returns a pair exactly when the listing, the
    reconciliation and every batch upload succeed; the second component
    is then the list [create_stocks] built for the listed ids, and the
    first is that list filtered, in order, to the records of nonzero
    quantity. *)
Theorem upload_stocks_pair :
  (forall (W : Type) post_product_list post_import_stocks
          (fuel : nat) rows client_id seller_token (w w' : W) not_empty stocks,
     Seller.upload_stocks post_product_list post_import_stocks fuel rows
       client_id seller_token w = Some (Ok (not_empty, stocks), w')
     <-> exists offer_ids w1 left batches,
           Seller.get_offer_ids post_product_list fuel client_id seller_token w
           = Some (Ok offer_ids, w1)
           /\ Seller.create_stocks rows offer_ids = Ok (stocks, left)
           /\ Seller.divide stocks 100 = Ok batches
           /\ for_each (fun some_stock =>
                          Seller.update_stocks post_import_stocks some_stock
                            client_id seller_token)
                       batches w1 = (Ok tt, w')
           /\ not_empty
              = filter (fun stock => negb (Seller.stock stock =? 0)) stocks)
  /\ (forall (W : Type) get_offer_mapping_entries put_offers_stocks clock
             (fuel : nat) rows campaign_id market_token warehouse_id
             (w w' : W) not_empty stocks,
        Market.upload_stocks get_offer_mapping_entries put_offers_stocks clock
          fuel rows campaign_id market_token warehouse_id w
        = Some (Ok (not_empty, stocks), w')
        <-> exists offer_ids w1 left batches,
              Market.get_offer_ids get_offer_mapping_entries fuel campaign_id
                market_token w = Some (Ok offer_ids, w1)
              /\ Market.create_stocks (clock w1) rows offer_ids warehouse_id
                 = Ok (stocks, left)
              /\ Seller.divide stocks 2000 = Ok batches
              /\ for_each (fun some_stock =>
                             Market.update_stocks put_offers_stocks some_stock
                               campaign_id market_token)
                          batches w1 = (Ok tt, w')
              /\ not_empty
                 = filter (fun stock => negb (market_quantity stock =? 0))
                          stocks).
Proof.
  split.
  - intros W list_ post fuel rows client token w w' not_empty stocks.
    unfold Seller.upload_stocks; split.
    + destruct (Seller.get_offer_ids _ _ _ _ _) as [[[ids|e] w1]|];
        try discriminate.
      destruct (Seller.create_stocks rows ids) as [[st left]|e] eqn:Hcreate;
        cbn [bind fst]; [|discriminate].
      destruct (Seller.divide st 100) as [batches|e] eqn:Hdiv; cbn [bind];
        [|discriminate].
      destruct (for_each _ batches w1) as [[[]|e] w2] eqn:Hfor;
        [|discriminate].
      intros [= <- <- <-]; exists ids, w1, left, batches.
      repeat split; assumption.
    + intros (ids & w1 & left & batches & -> & -> & Hdiv & Hfor & ->).
      cbn [bind fst]; rewrite Hdiv; cbn [bind]; now rewrite Hfor.
  - intros W list_ put clock fuel rows campaign token wh w w' not_empty stocks.
    unfold Market.upload_stocks; split.
    + destruct (Market.get_offer_ids _ _ _ _ _) as [[[ids|e] w1]|];
        try discriminate.
      destruct (Market.create_stocks (clock w1) rows ids wh)
        as [[st left]|e] eqn:Hcreate; cbn [bind fst]; [|discriminate].
      destruct (Seller.divide st 2000) as [batches|e] eqn:Hdiv; cbn [bind];
        [|discriminate].
      destruct (for_each _ batches w1) as [[[]|e] w2] eqn:Hfor;
        [|discriminate].
      rewrite (market_filter_not_empty _ _ _ _ _ _ Hcreate).
      intros [= <- <- <-]; exists ids, w1, left, batches.
      repeat split; assumption.
    + intros (ids & w1 & left & batches & -> & Hcreate & Hdiv & Hfor & ->).
      rewrite Hcreate; cbn [bind fst]; rewrite Hdiv; cbn [bind]; rewrite Hfor.
      now rewrite (market_filter_not_empty _ _ _ _ _ _ Hcreate).
Qed.

End WithInterpreter.

Section Examples.

#[local] Existing Instance CPython.interpreter.

Lemma upload_stocks_pair_witness :
  exists offer_ids w1 left batches,
    Seller.get_offer_ids sample_product_list 5 "id" "token" 0%nat
    = Some (Ok offer_ids, w1)
    /\ Seller.create_stocks sample_rows offer_ids
       = Ok ([seller_stock "X" 100; seller_stock "Y" 0; seller_stock "Z" 0],
             left)
    /\ Seller.divide [seller_stock "X" 100; seller_stock "Y" 0;
                      seller_stock "Z" 0] 100 = Ok batches
    /\ for_each (fun some_stock =>
                   Seller.update_stocks sample_import_stocks some_stock
                     "id" "token")
                batches w1 = (Ok tt, 3%nat)
    /\ [seller_stock "X" 100]
       = filter (fun stock => negb (Seller.stock stock =? 0))
                [seller_stock "X" 100; seller_stock "Y" 0; seller_stock "Z" 0].
Proof.
  exact (proj1 (proj1 upload_stocks_pair nat sample_product_list
                      sample_import_stocks 5%nat sample_rows "id" "token"
                      0%nat 3%nat
                      [seller_stock "X" 100]
                      [seller_stock "X" 100; seller_stock "Y" 0;
                       seller_stock "Z" 0])
               eq_refl).
Defined.

End Examples.

Section WithInterpreter.

Context {interp : Interpreter}.

(** * Further properties *)

(** ** More on the batcher *)

Lemma range_length_ceiling (len n : Z) :
  0 < n -> 0 <= len -> Py.range_length 0 len n = (len + n - 1) / n.
Proof.
  intros Hn Hlen; unfold Py.range_length.
  destruct (Z.ltb_spec 0 n); [|lia].
  destruct (Z.ltb_spec 0 len).
  - replace (len + n - 1) with (len - 1 - 0 + 1 * n) by lia.
    rewrite Z.div_add by lia; reflexivity.
  - replace len with 0 by lia; symmetry; apply Z.div_small; lia.
Qed.

(** All that is used of [divide] with a positive chunk size. *)
Lemma divide_batches {A : Type} (lst : list A) (n : Z) :
  0 < n ->
  exists chunks,
    Seller.divide lst n = Ok chunks
    /\ concat chunks = lst
    /\ Forall (fun chunk => 0 < Py.len chunk <= n) chunks
    /\ Py.len chunks = (Py.len lst + n - 1) / n.
Proof.
  intros Hn; rewrite divide_positive by assumption.
  eexists; split; [reflexivity|].
  pose proof (range_length_cover (Py.len lst) n Hn) as Hm.
  pose proof (range_length_ceiling (Py.len lst) n Hn) as Hc.
  unfold Py.len in *.
  specialize (Hm (Nat2Z.is_nonneg _)); specialize (Hc (Nat2Z.is_nonneg _)).
  simpl in Hm.
  set (m := Z.to_nat (Py.range_length 0 (Z.of_nat (length lst)) n)) in *.
  repeat split.
  - rewrite concat_chunks; apply firstn_all2; nia.
  - apply Forall_forall; intros chunk Hin.
    apply in_map_iff in Hin as (k & <- & Hk); apply in_seq in Hk.
    rewrite length_firstn, length_skipn; nia.
  - rewrite length_map, length_seq; unfold m; lia.
Qed.

(** X1: with a positive chunk size [divide] yields no empty chunk, and
    the number of chunks is the length of the list divided by the
    chunk size, rounded up; an empty list yields no chunk. *)
Theorem divide_chunks_non_empty {A : Type} (lst : list A) (n : Z) :
  0 < n ->
  exists chunks,
    Seller.divide lst n = Ok chunks
    /\ Forall (fun chunk => chunk <> []) chunks
    /\ Py.len chunks = (Py.len lst + n - 1) / n
    /\ (lst = [] -> chunks = []).
Proof.
  intros Hn.
  destruct (divide_batches lst n Hn) as (chunks & Hdiv & Hcat & Hlen & Hcount).
  exists chunks; split; [assumption|]; split; [|split; [assumption|]].
  - eapply Forall_impl; [|exact Hlen].
    intros chunk [Hpos _] ->; unfold Py.len in Hpos; simpl in Hpos; lia.
  - intros ->; destruct chunks as [|chunk chunks]; [reflexivity|].
    inversion Hlen as [|? ? [Hpos _] _]; subst.
    destruct chunk; [unfold Py.len in Hpos; simpl in Hpos; lia|].
    discriminate Hcat.
Qed.

End WithInterpreter.

Section Examples.

#[local] Existing Instance CPython.interpreter.

Lemma divide_chunks_non_empty_witness :
  exists chunks,
    Seller.divide [1; 2; 3; 4; 5] 2 = Ok chunks
    /\ Forall (fun chunk => chunk <> []) chunks
    /\ Py.len chunks = (Py.len [1; 2; 3; 4; 5] + 2 - 1) / 2
    /\ ([1; 2; 3; 4; 5] = [] -> chunks = []).
Proof. apply (divide_chunks_non_empty [1; 2; 3; 4; 5] 2); reflexivity. Defined.

(** ** More on the price normaliser *)

Lemma re_sub_non_digit_digits (s : string) :
  Forall (fun c => Py.is_digit c = true) (chars_of (Py.re_sub_non_digit s)).
Proof.
  induction s as [|c s IH]; simpl; [constructor|].
  destruct (Py.is_digit c) eqn:Hc; simpl; [constructor|]; assumption.
Qed.

End Examples.

Section WithInterpreter.

Context {interp : Interpreter}.

Lemma re_sub_non_digit_fixed (s : string) :
  Forall (fun c => Py.is_digit c = true) (chars_of s) ->
  Py.re_sub_non_digit s = s.
Proof.
  induction s as [|c s IH]; simpl; [reflexivity|].
  intros H; inversion H as [|? ? Hc Hs]; subst.
  now rewrite Hc, IH.
Qed.

Lemma split_digits (s : string) :
  Forall (fun c => Py.is_digit c = true) (chars_of s) ->
  Py.split "." s = [s].
Proof.
  induction s as [|c s IH]; simpl; [reflexivity|].
  intros H; inversion H as [|? ? Hc Hs]; subst.
  destruct (Ascii.eqb_spec c ".") as [->|_]; [discriminate Hc|].
  now rewrite IH.
Qed.

Lemma price_conversion_text (s : string) :
  exists d,
    Seller.price_conversion (VStr s) = Ok d
    /\ Forall (fun c => Py.is_digit c = true) (chars_of d).
Proof.
  destruct (split_first_field s) as (prefix & fields & Hsplit & _).
  exists (Py.re_sub_non_digit prefix); split.
  - unfold Seller.price_conversion; now rewrite Hsplit.
  - apply re_sub_non_digit_digits.
Qed.

(** X2: on a string [price_conversion] never raises, its result holds
    ASCII digits only, and converting the result again changes
    nothing. *)
Theorem price_conversion_idempotent (s : string) :
  exists d,
    Seller.price_conversion (VStr s) = Ok d
    /\ Forall (fun c => Py.is_digit c = true) (chars_of d)
    /\ Seller.price_conversion (VStr d) = Ok d.
Proof.
  destruct (price_conversion_text s) as (d & Hd & Hdigits).
  exists d; split; [assumption|]; split; [assumption|].
  unfold Seller.price_conversion.
  rewrite (split_digits d Hdigits); simpl.
  now rewrite (re_sub_non_digit_fixed d Hdigits).
Qed.

(** ** [int] on a string of digits *)

Lemma digit_value_bounds (c : ascii) :
  Py.is_digit c = true -> 0 <= Py.digit_value c <= 9.
Proof.
  intros Hc; apply is_digit_spec in Hc; simpl in Hc.
  decompose [or] Hc; subst; try contradiction; vm_compute;
    split; discriminate.
Qed.

Lemma digits_of_digit_string (s : string) :
  Forall (fun c => Py.is_digit c = true) (chars_of s) ->
  forall (acc : Z) (after_digit : bool),
    0 <= acc ->
    s <> EmptyString \/ after_digit = true ->
    exists v, Py.digits acc after_digit s = Some v /\ 0 <= v.
Proof.
  induction s as [|c s IH]; intros H acc b Hacc Hne; cbn [Py.digits].
  - destruct Hne as [Hne| ->]; [contradiction|now exists acc].
  - inversion H as [|? ? Hc Hs]; subst; rewrite Hc.
    apply IH; [assumption| |now right].
    pose proof (digit_value_bounds c Hc); lia.
Qed.

Lemma int_of_digit_string (d : string) :
  Forall (fun c => Py.is_digit c = true) (chars_of d) ->
  match Py.int_of_string d with
  | Some v => d <> EmptyString /\ 0 <= v
  | None => d = EmptyString
  end.
Proof.
  intros H; destruct d as [|c d]; [reflexivity|].
  assert (Hsp : Forall (fun c => Py.is_space c = false) (chars_of (String c d)))
    by (eapply Forall_impl; [|exact H]; apply digit_is_not_space).
  unfold Py.int_of_string; rewrite (is_ascii_digits _ H).
  unfold Py.int_of_ascii, Py.strip.
  rewrite lstrip_no_space by (inversion Hsp; assumption).
  rewrite rstrip_no_space by assumption.
  destruct (digits_of_digit_string (String c d) H 0 false) as (v & Hv & Hpos);
    [lia|now left|].
  inversion H as [|? ? Hc _]; subst.
  apply is_digit_spec in Hc; simpl in Hc.
  decompose [or] Hc; subst; try contradiction;
    cbn [Ascii.eqb Bool.eqb]; rewrite Hv; split; (discriminate || assumption).
Qed.

(** [int] on a string of digits returns unless the string is empty or
    longer than the interpreter converts. *)
Lemma int_of_digits_cases (d : string) :
  Forall (fun c => Py.is_digit c = true) (chars_of d) ->
  match Py.int (VStr d) with
  | Ok v => d <> EmptyString /\ Py.over_limit d = false /\ 0 <= v
  | Raise e => e = ValueError /\ (d = EmptyString \/ Py.over_limit d = true)
  end.
Proof.
  intros H; pose proof (int_of_digit_string d H) as Hint.
  cbn [Py.int]; rewrite (is_ascii_digits _ H), andb_true_l.
  destruct (Py.over_limit d); [split; [reflexivity|now right]|].
  destruct (Py.int_of_string d) as [v|].
  - destruct Hint as [Hne Hv]; auto.
  - split; [reflexivity|now left].
Qed.

(** ** Errors and values of [create_prices] *)

Lemma traverse_returns {A B : Type} (f : A -> result B) (l : list A) :
  match traverse f l with
  | Ok _ => Forall (fun a => exists b, f a = Ok b) l
  | Raise e => Exists (fun a => f a = Raise e) l
  end.
Proof.
  induction l as [|a l IH]; simpl; [constructor|].
  destruct (f a) as [b|e] eqn:Ha; simpl; [|now constructor].
  destruct (traverse f l) as [bs|e]; simpl.
  - constructor; [now exists b|assumption].
  - now apply Exists_cons_tl.
Qed.

Lemma seller_create_prices_traverse (rows : list Py.dict)
  (offer_ids : list string) :
  Seller.create_prices rows offer_ids
  = traverse seller_price_of (filter (in_remote offer_ids) rows).
Proof.
  unfold Seller.create_prices; rewrite seller_prices_traverse.
  now destruct (traverse _ _).
Qed.

Lemma market_create_prices_traverse (rows : list Py.dict)
  (offer_ids : list string) :
  Market.create_prices rows offer_ids
  = traverse market_price_of (filter (in_remote offer_ids) rows).
Proof.
  unfold Market.create_prices; rewrite market_prices_traverse.
  now destruct (traverse _ _).
Qed.

(** X3: [create_prices] of seller.py returns exactly when the price
    cell of every row with a remote code is a string, whatever the
    string; otherwise it raises [AttributeError], for a missing price
    as for a numeric one.  Rows whose code is not remote are never
    looked at. *)
Theorem seller_create_prices_errors (rows : list Py.dict)
  (offer_ids : list string) :
  match Seller.create_prices rows offer_ids with
  | Ok _ => Forall has_price_text (filter (in_remote offer_ids) rows)
  | Raise e =>
      e = AttributeError
      /\ Exists (fun watch => ~ has_price_text watch)
                (filter (in_remote offer_ids) rows)
  end.
Proof.
  rewrite seller_create_prices_traverse.
  pose proof (traverse_returns seller_price_of
                (filter (in_remote offer_ids) rows)) as H.
  destruct (traverse _ _) as [prices|e].
  - eapply Forall_impl; [|exact H].
    intros watch [p Hp]; unfold seller_price_of, has_price_text in *.
    destruct (Py.get watch "Цена") as [|s|z]; try discriminate Hp.
    now exists s.
  - assert (He : Exists (fun watch => e = AttributeError
                                      /\ ~ has_price_text watch)
                   (filter (in_remote offer_ids) rows)).
    { eapply Exists_impl; [|exact H].
      intros watch Hw; unfold seller_price_of, has_price_text in *.
      destruct (Py.get watch "Цена") as [|s|z] eqn:Hget.
      - injection Hw as <-; split; [reflexivity|intros [s Hs]; discriminate].
      - destruct (price_conversion_text s) as (d & Hd & _).
        rewrite Hd in Hw; discriminate Hw.
      - injection Hw as <-; split; [reflexivity|intros [s Hs]; discriminate]. }
    split.
    + apply Exists_exists in He as (watch & _ & He & _); exact He.
    + eapply Exists_impl; [|exact He]; intros watch [_ Hw]; exact Hw.
Qed.

Lemma market_price_of_cases (watch : Py.dict) :
  match market_price_of watch with
  | Ok p =>
      has_price_digits watch
      /\ 0 <= Market.value_ (Market.price p)
      /\ Market.currencyId (Market.price p) = "RUR"
      /\ Market.id p = code watch
  | Raise e =>
      (e = AttributeError /\ ~ has_price_text watch)
      \/ (e = ValueError /\ has_price_text watch /\ ~ has_price_digits watch)
  end.
Proof.
  unfold market_price_of, has_price_text, has_price_digits.
  destruct (Py.get watch "Цена") as [|s|z] eqn:Hget;
    try (simpl; left; split; [reflexivity|intros [s Hs]; discriminate]).
  destruct (price_conversion_text s) as (d & Hd & Hdigits).
  rewrite Hd; cbn [bind].
  pose proof (int_of_digits_cases d Hdigits) as Hint.
  destruct (Py.int (VStr d)) as [v|e]; cbn [bind].
  - destruct Hint as (Hne & Hlim & Hv); simpl.
    split; [exists s, d; auto|auto].
  - destruct Hint as [-> Hint].
    right; split; [reflexivity|]; split; [now exists s|].
    intros (s' & d' & [= <-] & Hd' & Hne & Hlim).
    assert (d' = d) by congruence; subst d'.
    destruct Hint; congruence.
Qed.

(** X4: [create_prices] of market.py returns exactly when every row
    with a remote code has a string price with a digit before its
    first full stop, and no more digits there than the interpreter
    converts.  It raises [AttributeError] for a price that is not a
    string and [ValueError] for a string without such a digit, where
    seller.py returns an empty price, or with too many of them, where
    seller.py returns them all. *)
Theorem market_create_prices_errors (rows : list Py.dict)
  (offer_ids : list string) :
  match Market.create_prices rows offer_ids with
  | Ok _ => Forall has_price_digits (filter (in_remote offer_ids) rows)
  | Raise e =>
      Exists (fun watch =>
                (e = AttributeError /\ ~ has_price_text watch)
                \/ (e = ValueError /\ has_price_text watch
                    /\ ~ has_price_digits watch))
             (filter (in_remote offer_ids) rows)
  end.
Proof.
  rewrite market_create_prices_traverse.
  pose proof (traverse_returns market_price_of
                (filter (in_remote offer_ids) rows)) as H.
  destruct (traverse _ _) as [prices|e].
  - eapply Forall_impl; [|exact H].
    intros watch [p Hp]; pose proof (market_price_of_cases watch) as Hc.
    rewrite Hp in Hc; tauto.
  - eapply Exists_impl; [|exact H].
    intros watch Hw; pose proof (market_price_of_cases watch) as Hc.
    now rewrite Hw in Hc.
Qed.

(** X5: every price [create_prices] of market.py returns is a
    non-negative integer in the currency ["RUR"] and belongs to a row
    of the stock file. *)
Theorem market_prices_non_negative (rows : list Py.dict)
  (offer_ids : list string) (prices : list Market.price_record) :
  Market.create_prices rows offer_ids = Ok prices ->
  Forall (fun p =>
            0 <= Market.value_ (Market.price p)
            /\ Market.currencyId (Market.price p) = "RUR"
            /\ exists watch, In watch rows /\ Market.id p = code watch)
         prices.
Proof.
  rewrite market_create_prices_traverse; intros Htr.
  apply traverse_Forall2 in Htr; apply Forall_forall; intros p Hp.
  destruct (Forall2_In_right _ _ _ _ Htr Hp) as (watch & Hw & Hin).
  pose proof (market_price_of_cases watch) as Hc; rewrite Hw in Hc.
  destruct Hc as (_ & Hv & Hcur & Hid); repeat split; try assumption.
  exists watch; split; [|assumption].
  apply filter_In in Hin; tauto.
Qed.

End WithInterpreter.

Section Examples.

#[local] Existing Instance CPython.interpreter.

Lemma market_prices_non_negative_witness :
  Forall (fun p =>
            0 <= Market.value_ (Market.price p)
            /\ Market.currencyId (Market.price p) = "RUR"
            /\ exists watch,
                 In watch [[("Код", VStr "A"); ("Цена", VStr "5'990.00 руб.")]]
                 /\ Market.id p = code watch)
         [{| Market.id := "A";
             Market.price := {| Market.value_ := 5990;
                                Market.currencyId := "RUR" |} |}].
Proof.
  exact (market_prices_non_negative
           [[("Код", VStr "A"); ("Цена", VStr "5'990.00 руб.")]]
           ["A"] _ eq_refl).
Defined.

End Examples.

Section WithInterpreter.

Context {interp : Interpreter}.

(** ** More on the reconciliation of stocks *)

Lemma seller_records_codes (l : list Py.dict)
  (records : list Seller.stock_record) :
  traverse seller_stock_of l = Ok records ->
  map Seller.stock_offer_id records = map code l.
Proof.
  intros H; apply traverse_Forall2 in H.
  induction H as [|watch r l records Hr _ IH]; simpl; [reflexivity|].
  unfold seller_stock_of in Hr.
  destruct (stock_of watch); simpl in Hr; [|discriminate].
  injection Hr as <-; simpl; now rewrite IH.
Qed.

Lemma market_records_codes (date warehouse_id : string) (l : list Py.dict)
  (records : list Market.stock_record) :
  traverse (market_stock_of date warehouse_id) l = Ok records ->
  map Market.sku records = map code l.
Proof.
  intros H; apply traverse_Forall2 in H.
  induction H as [|watch r l records Hr _ IH]; simpl; [reflexivity|].
  unfold market_stock_of in Hr.
  destruct (stock_of watch); simpl in Hr; [|discriminate].
  injection Hr as <-; simpl; now rewrite IH.
Qed.

(** X6: whatever the remote collection, repeated ids included, the
    ids of the records [create_stocks] returns are the remote ids, each
    as often as it is listed; the list is as long as the collection. *)
Theorem create_stocks_keeps_every_id (rows : list Py.dict)
  (offer_ids : list string) :
  (forall stocks left,
     Seller.create_stocks rows offer_ids = Ok (stocks, left) ->
     Permutation (map Seller.stock_offer_id stocks) offer_ids
     /\ length stocks = length offer_ids)
  /\ (forall date warehouse_id stocks left,
        Market.create_stocks date rows offer_ids warehouse_id = Ok (stocks, left) ->
        Permutation (map Market.sku stocks) offer_ids
        /\ length stocks = length offer_ids).
Proof.
  split.
  - intros stocks left; rewrite seller_create_stocks_traverse.
    destruct (traverse _ _) as [records|] eqn:Htr; simpl; [|discriminate].
    intros [= <- _].
    assert (Hperm : Permutation
                      (map Seller.stock_offer_id
                         (records ++ map (fun offer_id => seller_stock offer_id 0)
                                         (remaining rows offer_ids)))
                      offer_ids).
    { rewrite map_app, map_map, map_id, (seller_records_codes _ _ Htr).
      apply matched_remaining_perm. }
    split; [exact Hperm|].
    apply Permutation_length in Hperm; now rewrite length_map in Hperm.
  - intros date wh stocks left; rewrite market_create_stocks_traverse.
    destruct (traverse _ _) as [records|] eqn:Htr; simpl; [|discriminate].
    intros [= <- _].
    assert (Hperm : Permutation
                      (map Market.sku
                         (records ++ map (fun offer_id =>
                                            market_stock date wh offer_id 0)
                                         (remaining rows offer_ids)))
                      offer_ids).
    { rewrite map_app, map_map, map_id, (market_records_codes _ _ _ _ Htr).
      apply matched_remaining_perm. }
    split; [exact Hperm|].
    apply Permutation_length in Hperm; now rewrite length_map in Hperm.
Qed.

End WithInterpreter.

Section Examples.

#[local] Existing Instance CPython.interpreter.

Lemma create_stocks_keeps_every_id_witness :
  Permutation ["A"; "B"; "A"] ["A"; "A"; "B"]
  /\ length [seller_stock "A" 5; seller_stock "B" 100; seller_stock "A" 0]
     = length ["A"; "A"; "B"].
Proof.
  exact (proj1 (create_stocks_keeps_every_id
                  [[("Код", VStr "A"); ("Количество", VStr "5")];
                   [("Код", VStr "B"); ("Количество", VStr ">10")]]
                  ["A"; "A"; "B"])
               _ _ eq_refl).
Defined.

End Examples.

Section WithInterpreter.

Context {interp : Interpreter}.

Lemma stock_records_cases {R : Type} (build : Py.dict -> Z -> R)
  (l : list Py.dict) :
  match traverse (fun watch => q <- stock_of watch ;; Ok (build watch q)) l with
  | Ok _ => Forall resolves l
  | Raise e =>
      Exists (fun watch =>
                ~ resolves watch
                /\ ((e = TypeError /\ Py.get watch "Количество" = VNone)
                    \/ (e = ValueError
                        /\ exists s, Py.get watch "Количество" = VStr s)))
             l
  end.
Proof.
  pose proof (traverse_returns
                (fun watch => q <- stock_of watch ;; Ok (build watch q)) l) as H.
  destruct (traverse _ l) as [records|e].
  - eapply Forall_impl; [|exact H]; intros watch [r Hr]; cbv beta in Hr.
    pose proof (stock_of_cases watch) as Hc.
    destruct (stock_of watch); [assumption|discriminate].
  - eapply Exists_impl; [|exact H]; intros watch Hr; cbv beta in Hr.
    pose proof (stock_of_cases watch) as Hc.
    destruct (stock_of watch); simpl in Hr; [discriminate|].
    now injection Hr as <-.
Qed.

(** X7: [create_stocks] returns exactly when the quantity of every
    row that is matched resolves: it is one of the marks [">10"] and
    ["1"], or an integer, or a text that [int] reads.  Otherwise it
    raises [TypeError] for a matched row without quantity and
    [ValueError] for one whose quantity is a text that [int] does not
    read; the guarded [remove] never raises, and a row that is not
    matched never does. *)
Theorem create_stocks_errors (rows : list Py.dict) (offer_ids : list string) :
  match Seller.create_stocks rows offer_ids with
  | Ok _ => Forall resolves (matched_rows rows offer_ids)
  | Raise e =>
      Exists (fun watch =>
                ~ resolves watch
                /\ ((e = TypeError /\ Py.get watch "Количество" = VNone)
                    \/ (e = ValueError
                        /\ exists s, Py.get watch "Количество" = VStr s)))
             (matched_rows rows offer_ids)
  end.
Proof.
  rewrite seller_create_stocks_traverse.
  pose proof (stock_records_cases (fun watch => seller_stock (code watch))
                (matched_rows rows offer_ids)) as H.
  cbv beta in H; unfold seller_stock_of.
  destruct (traverse _ (matched_rows rows offer_ids)); simpl; exact H.
Qed.

Lemma market_records_of_seller (date warehouse_id : string)
  (l : list Py.dict) :
  traverse (market_stock_of date warehouse_id) l
  = (records <- traverse seller_stock_of l ;;
     Ok (map (market_of_seller date warehouse_id) records)).
Proof.
  induction l as [|watch l IH]; simpl; [reflexivity|].
  assert (Hm : market_stock_of date warehouse_id watch
               = (r <- seller_stock_of watch ;;
                  Ok (market_of_seller date warehouse_id r)))
    by (unfold market_stock_of, seller_stock_of;
        destruct (stock_of watch); reflexivity).
  rewrite IH, Hm.
  destruct (seller_stock_of watch); simpl; [|reflexivity].
  destruct (traverse seller_stock_of l); reflexivity.
Qed.

(** X8: on the same rows and ids [create_stocks] of market.py raises
    what the one of seller.py raises, and otherwise returns the same
    ids with the same quantities in the same order, each wrapped with
    the warehouse, the item type ["FIT"] and the date, and leaves the
    same ids in the collection. *)
Theorem market_create_stocks_as_seller (date warehouse_id : string)
  (rows : list Py.dict) (offer_ids : list string) :
  Market.create_stocks date rows offer_ids warehouse_id
  = (r <- Seller.create_stocks rows offer_ids ;;
     Ok (map (market_of_seller date warehouse_id) (fst r), snd r)).
Proof.
  rewrite market_create_stocks_traverse, seller_create_stocks_traverse.
  rewrite market_records_of_seller.
  destruct (traverse seller_stock_of _) as [records|]; simpl; [|reflexivity].
  now rewrite map_app, map_map.
Qed.

(** A row whose code is remote has lost its id from the collection by
    the time [create_stocks] is through, if no id is listed twice. *)
Lemma no_remote_row_remains (rows : list Py.dict) (offer_ids : list string) :
  NoDup offer_ids ->
  filter (in_remote (remaining rows offer_ids)) rows = [].
Proof.
  intros Hnd; rewrite (remaining_unmatched _ _ Hnd).
  destruct (filter _ rows) as [|watch l] eqn:Hf; [reflexivity|exfalso].
  assert (Hin : In watch (filter
                            (in_remote
                               (filter (fun offer_id =>
                                          negb (matched_by rows offer_id))
                                       offer_ids)) rows))
    by (rewrite Hf; now left).
  apply filter_In in Hin as [Hrow Hrem].
  unfold in_remote in Hrem; apply contains_In, filter_In in Hrem as [_ Hun].
  assert (Hm : matched_by rows (code watch) = true).
  { unfold matched_by; apply existsb_exists.
    exists watch; split; [assumption|apply String.eqb_refl]. }
  rewrite Hm in Hun; discriminate.
Qed.

(** X9: when no remote id is listed twice, [create_prices] run on the
    collection that [create_stocks] has been through, as [main] of
    seller.py does, finds no row to price and returns the empty
    list. *)
Theorem create_prices_after_create_stocks (rows : list Py.dict)
  (offer_ids : list string) :
  NoDup offer_ids ->
  forall stocks left,
    Seller.create_stocks rows offer_ids = Ok (stocks, left) ->
    Seller.create_prices rows left = Ok [].
Proof.
  intros Hnd stocks left Hstocks.
  apply seller_create_stocks_built in Hstocks as [-> _].
  now rewrite seller_create_prices_traverse, no_remote_row_remains.
Qed.

End WithInterpreter.

Section Examples.

#[local] Existing Instance CPython.interpreter.

Lemma create_prices_after_create_stocks_witness :
  Seller.create_prices
    [[("Код", VStr "X"); ("Количество", VStr ">10"); ("Цена", VStr "100.00")]]
    ["Y"; "Z"]
  = Ok [].
Proof.
  exact (create_prices_after_create_stocks
           [[("Код", VStr "X"); ("Количество", VStr ">10");
             ("Цена", VStr "100.00")]]
           ["X"; "Y"; "Z"] NoDup_XYZ _ _ eq_refl).
Defined.

End Examples.

Section WithInterpreter.

Context {interp : Interpreter}.

(** ** More on the listing loops *)

Lemma last_cons {A : Type} (x d : A) (l : list A) :
  last (x :: l) d = last l x.
Proof.
  revert x d; induction l as [|y l IH]; intros x d; [reflexivity|].
  change (last (x :: y :: l) d) with (last (y :: l) d).
  now rewrite !IH.
Qed.

Lemma len_app {A : Type} (l l' : list A) :
  Py.len (l ++ l') = Py.len l + Py.len l'.
Proof. unfold Py.len; rewrite length_app; lia. Qed.

Section SellerListingErrors.

Context {W : Type}.
Variable post_product_list :
  string -> string -> string -> W -> response Seller.product_page * W.
Variables client_id seller_token : string.

Local Abbreviation answers :=
  (seller_answers post_product_list client_id seller_token).
Local Abbreviation loop fuel :=
  (Seller.get_offer_ids_pages post_product_list fuel client_id seller_token).

(** The request sent after the pages [pages] is refused and leaves the
    world [w']. *)
Local Abbreviation refused last_id pages w1 w' :=
  (exists resp,
     post_product_list client_id seller_token
       (seller_next_last_id last_id pages) w1 = (resp, w')
     /\ status_ok resp = false).

Lemma seller_loop_raises (pages : list Seller.product_page) :
  forall fuel last_id product_list w w1 w',
    answers last_id w pages w1 ->
    seller_never_stops (Py.len product_list) pages ->
    (length pages < fuel)%nat ->
    refused last_id pages w1 w' ->
    loop fuel last_id product_list w = Some (Raise HTTPError, w').
Proof.
  induction pages as [|some_prod later IH];
    intros fuel last_id product_list w w1 w' Hans Hnever Hfuel Href;
    (destruct fuel as [|fuel]; [simpl in Hfuel; lia|]);
    inversion Hans as [|? ? ? w2 ? ? Hget Hlater]; subst; simpl.
  - destruct Href as (resp & Hpost & Hok).
    unfold Seller.get_product_list, raise_for_status.
    unfold seller_next_last_id in Hpost; simpl in Hpost.
    now rewrite Hpost, Hok.
  - rewrite Hget; simpl in Hnever; destruct Hnever as [Hne Hnever].
    rewrite len_app.
    destruct (Z.eqb_spec (Seller.total some_prod)
                (Py.len product_list + Py.len (Seller.items some_prod)));
      [contradiction|].
    apply (IH fuel _ _ w2 w1 w'); try assumption.
    + now rewrite len_app.
    + simpl in Hfuel; lia.
    + unfold seller_next_last_id in *; simpl map in Href.
      now rewrite last_cons in Href.
Qed.

(** With every answer reporting the total [reported] and more items
    than that at hand, the loop does not leave. *)
Lemma seller_loop_overshoots (reported : Z) :
  (forall last_id w,
     exists some_prod w',
       Seller.get_product_list post_product_list last_id client_id
         seller_token w = (Ok some_prod, w')
       /\ Seller.total some_prod = reported) ->
  forall fuel last_id product_list w,
    reported < Py.len product_list ->
    loop fuel last_id product_list w = None.
Proof.
  intros Hall; induction fuel as [|fuel IH]; intros last_id product_list w Hover;
    [reflexivity|].
  simpl; destruct (Hall last_id w) as (some_prod & w' & -> & Htotal).
  assert (Hlen : 0 <= Py.len (Seller.items some_prod))
    by (unfold Py.len; lia).
  destruct (Z.eqb_spec (Seller.total some_prod)
              (Py.len (product_list ++ Seller.items some_prod))) as [Heq|_];
    [rewrite len_app in Heq; lia|].
  apply IH; rewrite len_app; lia.
Qed.

End SellerListingErrors.

Section MarketListingErrors.

Context {W : Type}.
Variable get_offer_mapping_entries :
  string -> string -> string -> W -> response Market.product_page * W.
Variables campaign_id market_token : string.

Local Abbreviation answers :=
  (market_answers get_offer_mapping_entries campaign_id market_token).
Local Abbreviation loop fuel :=
  (Market.get_offer_ids_pages get_offer_mapping_entries fuel campaign_id
     market_token).
Local Abbreviation refused page pages w1 w' :=
  (exists resp,
     get_offer_mapping_entries campaign_id market_token
       (market_next_page page pages) w1 = (resp, w')
     /\ status_ok resp = false).

Lemma market_loop_raises (pages : list Market.product_page) :
  forall fuel page product_list w w1 w',
    answers page w pages w1 ->
    market_never_stops pages ->
    (length pages < fuel)%nat ->
    refused page pages w1 w' ->
    loop fuel page product_list w = Some (Raise HTTPError, w').
Proof.
  induction pages as [|some_prod later IH];
    intros fuel page product_list w w1 w' Hans Hnever Hfuel Href;
    (destruct fuel as [|fuel]; [simpl in Hfuel; lia|]);
    inversion Hans as [|? ? ? w2 ? ? Hget Hlater]; subst; simpl.
  - destruct Href as (resp & Hpost & Hok).
    unfold Market.get_product_list, raise_for_status.
    unfold market_next_page in Hpost; simpl in Hpost.
    now rewrite Hpost, Hok.
  - rewrite Hget; fold (next_page some_prod).
    inversion Hnever as [|? ? Hne Hnever']; subst; rewrite Hne.
    apply (IH fuel _ _ w2 w1 w'); try assumption.
    + simpl in Hfuel; lia.
    + unfold market_next_page in *; simpl map in Href.
      now rewrite last_cons in Href.
Qed.

Lemma market_loop_goes_on :
  (forall page w,
     exists some_prod w',
       Market.get_product_list get_offer_mapping_entries page campaign_id
         market_token w = (Ok some_prod, w')
       /\ Market.falsy (next_page some_prod) = false) ->
  forall fuel page product_list w, loop fuel page product_list w = None.
Proof.
  intros Hall; induction fuel as [|fuel IH]; intros page product_list w;
    [reflexivity|].
  simpl; destruct (Hall page w) as (some_prod & w' & -> & Hstop).
  fold (next_page some_prod); rewrite Hstop; apply IH.
Qed.

End MarketListingErrors.

(** X10: a request that the marketplace refuses (a status that is no
    success) before the exit test of the loop has held ends each
    [get_offer_ids] with [HTTPError]: the pages received so far are
    dropped and no further request is made. *)
Theorem get_offer_ids_raises :
  (forall (W : Type) post_product_list client_id seller_token
          (fuel : nat) (w w1 w' : W) pages resp,
     seller_answers post_product_list client_id seller_token "" w pages w1 ->
     seller_never_stops 0 pages ->
     (length pages < fuel)%nat ->
     post_product_list client_id seller_token
       (seller_next_last_id "" pages) w1 = (resp, w') ->
     status_ok resp = false ->
     Seller.get_offer_ids post_product_list fuel client_id seller_token w
     = Some (Raise HTTPError, w'))
  /\ (forall (W : Type) get_offer_mapping_entries campaign_id market_token
             (fuel : nat) (w w1 w' : W) pages resp,
        market_answers get_offer_mapping_entries campaign_id market_token
          "" w pages w1 ->
        market_never_stops pages ->
        (length pages < fuel)%nat ->
        get_offer_mapping_entries campaign_id market_token
          (market_next_page "" pages) w1 = (resp, w') ->
        status_ok resp = false ->
        Market.get_offer_ids get_offer_mapping_entries fuel campaign_id
          market_token w = Some (Raise HTTPError, w')).
Proof.
  split.
  - intros W get client token fuel w w1 w' pages resp Hans Hnever Hfuel
      Hpost Hok.
    unfold Seller.get_offer_ids.
    rewrite (seller_loop_raises _ _ _ pages fuel "" [] w w1 w');
      try assumption; [reflexivity|now exists resp].
  - intros W get campaign token fuel w w1 w' pages resp Hans Hnever Hfuel
      Hpost Hok.
    unfold Market.get_offer_ids.
    rewrite (market_loop_raises _ _ _ pages fuel "" [] w w1 w');
      try assumption; [reflexivity|now exists resp].
Qed.

End WithInterpreter.

Section Examples.

#[local] Existing Instance CPython.interpreter.

Lemma get_offer_ids_raises_witness :
  Seller.get_offer_ids failing_product_list 5 "id" "token" 0%nat
  = Some (Raise HTTPError, 2%nat).
Proof.
  apply (proj1 get_offer_ids_raises nat failing_product_list "id" "token"
               5%nat 0%nat 1%nat 2%nat
               [{| Seller.items := [{| Seller.offer_id := "X" |}];
                   Seller.total := 3;
                   Seller.page_last_id := "X" |}]
               {| status_ok := false;
                  body := {| Seller.items := [{| Seller.offer_id := "X" |}];
                             Seller.total := 3;
                             Seller.page_last_id := "X" |} |}).
  - eapply seller_answers_page; [reflexivity|apply seller_answers_none].
  - split; [discriminate|exact I].
  - simpl; lia.
  - reflexivity.
  - reflexivity.
Defined.

End Examples.

Section WithInterpreter.

Context {interp : Interpreter}.

(** X11: neither loop has a bound on the number of requests.  If the
    Ozon listing always reports the same total and its first answer
    holds more items than that, [get_offer_ids] of seller.py never
    returns, the count having passed the total; if the Yandex listing
    always hands out a next-page token, neither does the one of
    market.py. *)
Theorem get_offer_ids_runs_on :
  (forall (W : Type) post_product_list client_id seller_token
          (reported : Z) (w : W),
     (forall last_id w0,
        exists some_prod w',
          Seller.get_product_list post_product_list last_id client_id
            seller_token w0 = (Ok some_prod, w')
          /\ Seller.total some_prod = reported) ->
     (forall some_prod w',
        Seller.get_product_list post_product_list "" client_id seller_token w
        = (Ok some_prod, w') ->
        reported < Py.len (Seller.items some_prod)) ->
     forall fuel,
       Seller.get_offer_ids post_product_list fuel client_id seller_token w
       = None)
  /\ (forall (W : Type) get_offer_mapping_entries campaign_id market_token
             (w : W),
        (forall page w0,
           exists some_prod w',
             Market.get_product_list get_offer_mapping_entries page
               campaign_id market_token w0 = (Ok some_prod, w')
             /\ Market.falsy (next_page some_prod) = false) ->
        forall fuel,
          Market.get_offer_ids get_offer_mapping_entries fuel campaign_id
            market_token w = None).
Proof.
  split.
  - intros W post client token reported w Hall Hfirst fuel.
    unfold Seller.get_offer_ids.
    destruct fuel as [|fuel]; [reflexivity|].
    cbn [Seller.get_offer_ids_pages app].
    destruct (Hall "" w) as (some_prod & w' & Hget & Htotal); rewrite Hget.
    specialize (Hfirst _ _ Hget).
    change ([] ++ Seller.items some_prod) with (Seller.items some_prod).
    destruct (Z.eqb_spec (Seller.total some_prod)
                (Py.len (Seller.items some_prod))); [lia|].
    rewrite (seller_loop_overshoots post client token reported Hall)
      by assumption.
    reflexivity.
  - intros W get campaign token w Hall fuel; unfold Market.get_offer_ids.
    now rewrite (market_loop_goes_on get campaign token Hall).
Qed.

End WithInterpreter.

Section Examples.

#[local] Existing Instance CPython.interpreter.

Lemma get_offer_ids_runs_on_witness :
  Seller.get_offer_ids overfull_product_list 100 "id" "token" 0%nat = None.
Proof.
  apply (proj1 get_offer_ids_runs_on nat overfull_product_list "id" "token" 1).
  - intros last_id w0; do 2 eexists; split; reflexivity.
  - intros some_prod w' [= <- _]; reflexivity.
Defined.

End Examples.

Section WithInterpreter.

Context {interp : Interpreter}.

Lemma seller_stop_total (pages : list Seller.product_page) :
  forall received,
    seller_stops_at_last received pages ->
    exists earlier some_prod,
      pages = earlier ++ [some_prod]
      /\ Seller.total some_prod
         = received + Py.len (concat (map Seller.items pages)).
Proof.
  induction pages as [|p later IH]; intros received Hstop; [contradiction|].
  simpl in Hstop; destruct later as [|next later].
  - exists [], p; split; [reflexivity|].
    simpl; now rewrite app_nil_r.
  - destruct Hstop as [_ Hstop].
    apply IH in Hstop as (earlier & some_prod & Heq & Htotal).
    exists (p :: earlier), some_prod; split; [simpl; now rewrite Heq|].
    rewrite Htotal.
    change (concat (map Seller.items (p :: next :: later)))
      with (Seller.items p ++ concat (map Seller.items (next :: later))).
    rewrite len_app; lia.
Qed.

(** X12: when [get_offer_ids] of seller.py returns, the list has as
    many ids as the last answer of the marketplace reported in
    [total], repeated ids counted as often as received. *)
Theorem get_offer_ids_count (W : Type) post_product_list
  (client_id seller_token : string) (fuel : nat) (w w' : W)
  (offer_ids : list string) :
  Seller.get_offer_ids post_product_list fuel client_id seller_token w
  = Some (Ok offer_ids, w') ->
  exists earlier some_prod,
    seller_answers post_product_list client_id seller_token "" w
      (earlier ++ [some_prod]) w'
    /\ Seller.total some_prod = Py.len offer_ids.
Proof.
  unfold Seller.get_offer_ids.
  destruct (Seller.get_offer_ids_pages _ _ _ _ _ _ _)
    as [[[all|e] w1]|] eqn:Hloop; try discriminate.
  intros [= <- <-].
  apply seller_loop_returned in Hloop as (pages & Hans & Hstop & _ & ->).
  apply seller_stop_total in Hstop as (earlier & some_prod & -> & Htotal).
  exists earlier, some_prod; split; [assumption|].
  rewrite Htotal; unfold Py.len; simpl; now rewrite length_map.
Qed.

End WithInterpreter.

Section Examples.

#[local] Existing Instance CPython.interpreter.

Lemma get_offer_ids_count_witness :
  exists earlier some_prod,
    seller_answers sample_product_list "id" "token" "" 0%nat
      (earlier ++ [some_prod]) 2%nat
    /\ Seller.total some_prod = Py.len ["X"; "Y"; "Z"].
Proof.
  exact (get_offer_ids_count nat sample_product_list "id" "token" 5%nat
           0%nat 2%nat ["X"; "Y"; "Z"] eq_refl).
Defined.

End Examples.

Section WithInterpreter.

Context {interp : Interpreter}.

(** ** Uploading in batches *)

Lemma for_each_app {A B W : Type} (submit : A -> W -> result B * W)
  (sent rest : list A) (w : W) :
  for_each submit (sent ++ rest) w
  = match for_each submit sent w with
    | (Ok _, w1) => for_each submit rest w1
    | (Raise e, w1) => (Raise e, w1)
    end.
Proof.
  revert w; induction sent as [|batch sent IH]; intros w; simpl;
    [reflexivity|].
  destruct (submit batch w) as [[b|e] w1]; [apply IH|reflexivity].
Qed.

Lemma seller_create_prices_for (rows : list Py.dict)
  (offer_ids : list string) (prices : list Seller.price_record) :
  Seller.create_prices rows offer_ids = Ok prices ->
  Forall2 seller_price_for (filter (in_remote offer_ids) rows) prices.
Proof.
  rewrite seller_create_prices_traverse; intros H.
  apply traverse_Forall2 in H.
  now apply (Forall2_iff _ _ _ _ seller_price_of_for).
Qed.

Lemma market_create_prices_for (rows : list Py.dict)
  (offer_ids : list string) (prices : list Market.price_record) :
  Market.create_prices rows offer_ids = Ok prices ->
  Forall2 market_price_for (filter (in_remote offer_ids) rows) prices.
Proof.
  rewrite market_create_prices_traverse; intros H.
  apply traverse_Forall2 in H.
  now apply (Forall2_iff _ _ _ _ market_price_of_for).
Qed.

(** X13: when [upload_prices] returns, the prices it returns are
    those of the rows whose code is among the ids just listed, one
    record per such row and in the order of the rows; after the
    listing it has sent every one of them once, in that order, in
    batches that are never empty and hold at most 1000 records
    (seller.py) or 500 (market.py), and nothing else. *)
Theorem upload_prices_batches :
  (forall (W : Type) post_product_list post_import_prices
          (fuel : nat) rows client_id seller_token (w w' : W) prices,
     Seller.upload_prices post_product_list post_import_prices fuel rows
       client_id seller_token w = Some (Ok prices, w') ->
     exists offer_ids w1 batches,
       Seller.get_offer_ids post_product_list fuel client_id seller_token w
       = Some (Ok offer_ids, w1)
       /\ Forall2 seller_price_for (filter (in_remote offer_ids) rows) prices
       /\ concat batches = prices
       /\ Forall (fun batch => 0 < Py.len batch <= 1000) batches
       /\ for_each (fun some_price =>
                      Seller.update_price post_import_prices some_price
                        client_id seller_token)
                   batches w1 = (Ok tt, w'))
  /\ (forall (W : Type) get_offer_mapping_entries post_offer_prices
             (fuel : nat) rows campaign_id market_token (w w' : W) prices,
        Market.upload_prices get_offer_mapping_entries post_offer_prices fuel
          rows campaign_id market_token w = Some (Ok prices, w') ->
        exists offer_ids w1 batches,
          Market.get_offer_ids get_offer_mapping_entries fuel campaign_id
            market_token w = Some (Ok offer_ids, w1)
          /\ Forall2 market_price_for (filter (in_remote offer_ids) rows)
                     prices
          /\ concat batches = prices
          /\ Forall (fun batch => 0 < Py.len batch <= 500) batches
          /\ for_each (fun some_prices =>
                         Market.update_price post_offer_prices some_prices
                           campaign_id market_token)
                      batches w1 = (Ok tt, w')).
Proof.
  split.
  - intros W list_ post fuel rows client token w w' prices.
    unfold Seller.upload_prices.
    destruct (Seller.get_offer_ids _ _ _ _ _) as [[[ids|e] w1]|];
      try discriminate.
    destruct (Seller.create_prices rows ids) as [ps|e] eqn:Hcreate;
      cbn [bind]; [|discriminate].
    destruct (divide_batches ps 1000) as (batches & -> & Hcat & Hlen & _);
      [lia|]; cbn [bind].
    destruct (for_each _ batches w1) as [[[]|e] w2] eqn:Hfor; [|discriminate].
    intros [= <- <-]; exists ids, w1, batches.
    split; [reflexivity|].
    split; [now apply seller_create_prices_for|].
    split; [assumption|]; split; assumption.
  - intros W list_ post fuel rows campaign token w w' prices.
    unfold Market.upload_prices.
    destruct (Market.get_offer_ids _ _ _ _ _) as [[[ids|e] w1]|];
      try discriminate.
    destruct (Market.create_prices rows ids) as [ps|e] eqn:Hcreate;
      cbn [bind]; [|discriminate].
    destruct (divide_batches ps 500) as (batches & -> & Hcat & Hlen & _);
      [lia|]; cbn [bind].
    destruct (for_each _ batches w1) as [[[]|e] w2] eqn:Hfor; [|discriminate].
    intros [= <- <-]; exists ids, w1, batches.
    split; [reflexivity|].
    split; [now apply market_create_prices_for|].
    split; [assumption|]; split; assumption.
Qed.

End WithInterpreter.

Section Examples.

#[local] Existing Instance CPython.interpreter.

Lemma upload_prices_batches_witness :
  exists offer_ids w1 batches,
    Seller.get_offer_ids sample_product_list 5 "id" "token" 0%nat
    = Some (Ok offer_ids, w1)
    /\ Forall2 seller_price_for
         (filter (in_remote offer_ids)
                 [[("Код", VStr "X"); ("Цена", VStr "12.50")]])
         [{| Seller.auto_action_enabled := "UNKNOWN";
             Seller.currency_code := "RUB";
             Seller.price_offer_id := "X";
             Seller.old_price := "0";
             Seller.price := "12" |}]
    /\ concat batches
       = [{| Seller.auto_action_enabled := "UNKNOWN";
             Seller.currency_code := "RUB";
             Seller.price_offer_id := "X";
             Seller.old_price := "0";
             Seller.price := "12" |}]
    /\ Forall (fun batch => 0 < Py.len batch <= 1000) batches
    /\ for_each (fun some_price =>
                   Seller.update_price sample_import_prices some_price
                     "id" "token")
                batches w1 = (Ok tt, 3%nat).
Proof.
  exact (proj1 upload_prices_batches nat sample_product_list
               sample_import_prices 5%nat
               [[("Код", VStr "X"); ("Цена", VStr "12.50")]]
               "id" "token" 0%nat 3%nat _ eq_refl).
Defined.

End Examples.

Section WithInterpreter.

Context {interp : Interpreter}.

(** X14: when [upload_stocks] returns, the stock list it returns is
    the one [create_stocks] built for the ids just listed; after the
    listing it has sent every record of that list once, in the order
    of the list, in batches that are never empty and hold at most 100
    records (seller.py) or 2000 (market.py), and nothing else. *)
Theorem upload_stocks_batches :
  (forall (W : Type) post_product_list post_import_stocks
          (fuel : nat) rows client_id seller_token (w w' : W) not_empty stocks,
     Seller.upload_stocks post_product_list post_import_stocks fuel rows
       client_id seller_token w = Some (Ok (not_empty, stocks), w') ->
     exists offer_ids w1 left batches,
       Seller.get_offer_ids post_product_list fuel client_id seller_token w
       = Some (Ok offer_ids, w1)
       /\ Seller.create_stocks rows offer_ids = Ok (stocks, left)
       /\ concat batches = stocks
       /\ Forall (fun batch => 0 < Py.len batch <= 100) batches
       /\ for_each (fun some_stock =>
                      Seller.update_stocks post_import_stocks some_stock
                        client_id seller_token)
                   batches w1 = (Ok tt, w'))
  /\ (forall (W : Type) get_offer_mapping_entries put_offers_stocks clock
             (fuel : nat) rows campaign_id market_token warehouse_id
             (w w' : W) not_empty stocks,
        Market.upload_stocks get_offer_mapping_entries put_offers_stocks clock
          fuel rows campaign_id market_token warehouse_id w
        = Some (Ok (not_empty, stocks), w') ->
        exists offer_ids w1 left batches,
          Market.get_offer_ids get_offer_mapping_entries fuel campaign_id
            market_token w = Some (Ok offer_ids, w1)
          /\ Market.create_stocks (clock w1) rows offer_ids warehouse_id
             = Ok (stocks, left)
          /\ concat batches = stocks
          /\ Forall (fun batch => 0 < Py.len batch <= 2000) batches
          /\ for_each (fun some_stock =>
                         Market.update_stocks put_offers_stocks some_stock
                           campaign_id market_token)
                      batches w1 = (Ok tt, w')).
Proof.
  split.
  - intros W list_ post fuel rows client token w w' not_empty stocks.
    unfold Seller.upload_stocks.
    destruct (Seller.get_offer_ids _ _ _ _ _) as [[[ids|e] w1]|];
      try discriminate.
    destruct (Seller.create_stocks rows ids) as [[st left]|e] eqn:Hcreate;
      cbn [bind fst]; [|discriminate].
    destruct (divide_batches st 100) as (batches & -> & Hcat & Hlen & _);
      [lia|]; cbn [bind].
    destruct (for_each _ batches w1) as [[[]|e] w2] eqn:Hfor; [|discriminate].
    intros [= _ <- <-]; exists ids, w1, left, batches.
    split; [reflexivity|]; split; [assumption|].
    split; [assumption|]; split; assumption.
  - intros W list_ put clock fuel rows campaign token wh w w' not_empty stocks.
    unfold Market.upload_stocks.
    destruct (Market.get_offer_ids _ _ _ _ _) as [[[ids|e] w1]|];
      try discriminate.
    destruct (Market.create_stocks (clock w1) rows ids wh)
      as [[st left]|e] eqn:Hcreate; cbn [bind fst]; [|discriminate].
    destruct (divide_batches st 2000) as (batches & -> & Hcat & Hlen & _);
      [lia|]; cbn [bind].
    destruct (for_each _ batches w1) as [[[]|e] w2] eqn:Hfor; [|discriminate].
    destruct (Py.filter _ st); [|discriminate].
    intros [= _ <- <-]; exists ids, w1, left, batches.
    split; [reflexivity|]; split; [assumption|].
    split; [assumption|]; split; assumption.
Qed.

End WithInterpreter.

Section Examples.

#[local] Existing Instance CPython.interpreter.

Lemma upload_stocks_batches_witness :
  exists offer_ids w1 left batches,
    Seller.get_offer_ids sample_product_list 5 "id" "token" 0%nat
    = Some (Ok offer_ids, w1)
    /\ Seller.create_stocks sample_rows offer_ids
       = Ok ([seller_stock "X" 100; seller_stock "Y" 0; seller_stock "Z" 0],
             left)
    /\ concat batches
       = [seller_stock "X" 100; seller_stock "Y" 0; seller_stock "Z" 0]
    /\ Forall (fun batch => 0 < Py.len batch <= 100) batches
    /\ for_each (fun some_stock =>
                   Seller.update_stocks sample_import_stocks some_stock
                     "id" "token")
                batches w1 = (Ok tt, 3%nat).
Proof.
  exact (proj1 upload_stocks_batches nat sample_product_list
               sample_import_stocks 5%nat sample_rows "id" "token"
               0%nat 3%nat
               [seller_stock "X" 100]
               [seller_stock "X" 100; seller_stock "Y" 0; seller_stock "Z" 0]
               eq_refl).
Defined.

End Examples.

Section WithInterpreter.

Context {interp : Interpreter}.

(** X15: a refused batch ends [upload_stocks] of seller.py with
    [HTTPError]: the batches before it stay uploaded, the batches after
    it are never sent, and no pair is returned. *)
Theorem upload_stocks_stops_at_refusal (W : Type) post_product_list
  post_import_stocks (fuel : nat) (rows : list Py.dict)
  (client_id seller_token : string) (w w1 w2 w3 : W)
  (offer_ids left : list string) (stocks : list Seller.stock_record)
  (sent unsent : list (list Seller.stock_record))
  (refused : list Seller.stock_record) (resp : response unit) :
  Seller.get_offer_ids post_product_list fuel client_id seller_token w
  = Some (Ok offer_ids, w1) ->
  Seller.create_stocks rows offer_ids = Ok (stocks, left) ->
  Seller.divide stocks 100 = Ok (sent ++ refused :: unsent) ->
  for_each (fun some_stock =>
              Seller.update_stocks post_import_stocks some_stock
                client_id seller_token)
           sent w1 = (Ok tt, w2) ->
  post_import_stocks client_id seller_token refused w2 = (resp, w3) ->
  status_ok resp = false ->
  Seller.upload_stocks post_product_list post_import_stocks fuel rows
    client_id seller_token w = Some (Raise HTTPError, w3).
Proof.
  intros Hids Hstocks Hdiv Hsent Hpost Hok; unfold Seller.upload_stocks.
  rewrite Hids, Hstocks; cbn [bind fst]; rewrite Hdiv; cbn [bind].
  rewrite for_each_app, Hsent; simpl.
  unfold Seller.update_stocks, raise_for_status; now rewrite Hpost, Hok.
Qed.

End WithInterpreter.

Section Examples.

#[local] Existing Instance CPython.interpreter.

Lemma upload_stocks_stops_at_refusal_witness :
  Seller.upload_stocks sample_product_list refusing_import_stocks 5
    sample_rows "id" "token" 0%nat = Some (Raise HTTPError, 3%nat).
Proof.
  apply (upload_stocks_stops_at_refusal nat sample_product_list
           refusing_import_stocks 5%nat sample_rows "id" "token"
           0%nat 2%nat 2%nat 3%nat ["X"; "Y"; "Z"] ["Z"]
           [seller_stock "X" 100; seller_stock "Y" 0; seller_stock "Z" 0]
           [] []
           [seller_stock "X" 100; seller_stock "Y" 0; seller_stock "Z" 0]
           {| status_ok := false; body := tt |});
    reflexivity.
Defined.

End Examples.

Section WithInterpreter.

Context {interp : Interpreter}.

(** ** The run of seller.py *)

(** X16: when no listed id is repeated and the listing, the download,
    the reconciliation and every stock upload succeed, [main] of
    seller.py ends without an error in the world the last stock upload
    has left, whatever the price endpoint would answer: [create_prices]
    sees the collection [create_stocks] has emptied of every id a row
    has, so that no price request is made. *)
Theorem seller_main_sends_no_price (W : Type) post_product_list
  post_import_stocks download_stock (fuel : nat)
  (client_id seller_token : string) (w w1 w2 w3 : W)
  (offer_ids left : list string) (rows : list Py.dict)
  (stocks : list Seller.stock_record)
  (batches : list (list Seller.stock_record)) :
  Seller.get_offer_ids post_product_list fuel client_id seller_token w
  = Some (Ok offer_ids, w1) ->
  NoDup offer_ids ->
  download_stock w1 = (Ok rows, w2) ->
  Seller.create_stocks rows offer_ids = Ok (stocks, left) ->
  Seller.divide stocks 100 = Ok batches ->
  for_each (fun some_stock =>
              Seller.update_stocks post_import_stocks some_stock
                client_id seller_token)
           batches w2 = (Ok tt, w3) ->
  forall post_import_prices,
    Seller.main post_product_list post_import_stocks post_import_prices
      download_stock fuel client_id seller_token w = Some (None, w3).
Proof.
  intros Hids Hnd Hdown Hstocks Hdiv Hsent post_prices.
  unfold Seller.main, Seller.main_try.
  rewrite Hids, Hdown, Hstocks; cbn [bind fst snd]; rewrite Hdiv; cbn [bind].
  rewrite Hsent.
  pose proof (seller_create_stocks_built _ _ _ _ Hstocks) as [-> _].
  rewrite seller_create_prices_traverse, (no_remote_row_remains _ _ Hnd).
  reflexivity.
Qed.

End WithInterpreter.

Section Examples.

#[local] Existing Instance CPython.interpreter.

Lemma seller_main_sends_no_price_witness :
  Seller.main sample_product_list sample_import_stocks sample_import_prices
    sample_download_stock 5 "id" "token" 0%nat = Some (None, 3%nat).
Proof.
  apply (seller_main_sends_no_price nat sample_product_list
           sample_import_stocks sample_download_stock 5%nat "id" "token"
           0%nat 2%nat 2%nat 3%nat ["X"; "Y"; "Z"] ["Z"] sample_priced_rows
           [seller_stock "X" 100; seller_stock "Y" 0; seller_stock "Z" 0]
           [[seller_stock "X" 100; seller_stock "Y" 0; seller_stock "Z" 0]]);
    try reflexivity.
  exact NoDup_XYZ.
Defined.

End Examples.

Section WithInterpreter.

Context {interp : Interpreter}.

(** ** What the callers receive *)

(** X17: every record in the first component of the pair
    [upload_stocks] of seller.py returns stems from a row of the stock
    file: its id is the code of the row and its quantity, which is not
    0, is the one the rule gives for the row.  No zero-filled remote id
    is among them. *)
Theorem upload_stocks_not_empty_rows (W : Type) post_product_list
  post_import_stocks (fuel : nat) (rows : list Py.dict)
  (client_id seller_token : string) (w w' : W)
  (not_empty stocks : list Seller.stock_record) :
  Seller.upload_stocks post_product_list post_import_stocks fuel rows
    client_id seller_token w = Some (Ok (not_empty, stocks), w') ->
  Forall (fun record =>
            Seller.stock record <> 0
            /\ exists watch,
                 In watch rows
                 /\ code watch = Seller.stock_offer_id record
                 /\ quantity_of_indicator (indicator watch)
                    = Some (Seller.stock record))
         not_empty.
Proof.
  unfold Seller.upload_stocks.
  destruct (Seller.get_offer_ids _ _ _ _ _) as [[[ids|e] w1]|];
    try discriminate.
  destruct (Seller.create_stocks rows ids) as [[st left]|e] eqn:Hcreate;
    cbn [bind fst]; [|discriminate].
  destruct (Seller.divide st 100) as [batches|e]; cbn [bind]; [|discriminate].
  destruct (for_each _ batches w1) as [[[]|e] w2]; [|discriminate].
  intros [= <- <- _]; apply Forall_forall; intros record Hin.
  apply filter_In in Hin as [Hin Hnz].
  apply negb_true_iff, Z.eqb_neq in Hnz; split; [assumption|].
  rewrite seller_create_stocks_traverse in Hcreate.
  destruct (traverse _ _) as [records|] eqn:Htr; simpl in Hcreate;
    [|discriminate].
  injection Hcreate as <- _; apply in_app_or in Hin as [Hin|Hin].
  - apply traverse_Forall2 in Htr.
    destruct (Forall2_In_right _ _ _ _ Htr Hin) as (watch & Hw & Hm).
    apply matched_rows_In in Hm as [Hrow _].
    unfold seller_stock_of in Hw.
    destruct (stock_of watch) as [q|] eqn:Hq; simpl in Hw; [|discriminate].
    injection Hw as <-; exists watch; simpl.
    split; [assumption|]; split; [reflexivity|now apply stock_of_indicator].
  - apply in_map_iff in Hin as (x & <- & _); simpl in Hnz; contradiction.
Qed.

End WithInterpreter.

Section Examples.

#[local] Existing Instance CPython.interpreter.

Lemma upload_stocks_not_empty_rows_witness :
  Forall (fun record =>
            Seller.stock record <> 0
            /\ exists watch,
                 In watch sample_rows
                 /\ code watch = Seller.stock_offer_id record
                 /\ quantity_of_indicator (indicator watch)
                    = Some (Seller.stock record))
         [seller_stock "X" 100].
Proof.
  exact (upload_stocks_not_empty_rows nat sample_product_list
           sample_import_stocks 5%nat sample_rows "id" "token" 0%nat 3%nat
           [seller_stock "X" 100]
           [seller_stock "X" 100; seller_stock "Y" 0; seller_stock "Z" 0]
           eq_refl).
Defined.

End Examples.

Section WithInterpreter.

Context {interp : Interpreter}.

Lemma market_prices_of_seller (l : list Py.dict)
  (prices : list Market.price_record) :
  traverse market_price_of l = Ok prices ->
  exists seller_prices,
    traverse seller_price_of l = Ok seller_prices
    /\ Forall2 (fun s m =>
                  Market.id m = Seller.price_offer_id s
                  /\ Py.int (VStr (Seller.price s))
                     = Ok (Market.value_ (Market.price m)))
               seller_prices prices.
Proof.
  revert prices; induction l as [|watch l IH]; intros prices; simpl.
  - intros [= <-]; exists []; split; [reflexivity|constructor].
  - unfold market_price_of at 1, seller_price_of at 1.
    destruct (Seller.price_conversion _) as [converted|]; cbn [bind];
      [|discriminate].
    destruct (Py.int (VStr converted)) as [value|] eqn:Hv; cbn [bind];
      [|discriminate].
    destruct (traverse market_price_of l) as [ms|]; cbn [bind];
      [|discriminate].
    intros [= <-]; destruct (IH ms eq_refl) as (ss & -> & Hall).
    eexists; split; [reflexivity|].
    constructor; [simpl; split; [reflexivity|assumption]|assumption].
Qed.

(** X18: whenever [create_prices] of market.py returns, the one of
    seller.py returns for the same rows and ids a list with the same
    ids in the same order, and each price of market.py is the integer
    that the price string of seller.py reads as. *)
Theorem market_prices_as_seller (rows : list Py.dict)
  (offer_ids : list string) (prices : list Market.price_record) :
  Market.create_prices rows offer_ids = Ok prices ->
  exists seller_prices,
    Seller.create_prices rows offer_ids = Ok seller_prices
    /\ Forall2 (fun s m =>
                  Market.id m = Seller.price_offer_id s
                  /\ Py.int (VStr (Seller.price s))
                     = Ok (Market.value_ (Market.price m)))
               seller_prices prices.
Proof.
  rewrite market_create_prices_traverse, seller_create_prices_traverse.
  apply market_prices_of_seller.
Qed.

End WithInterpreter.

Section Examples.

#[local] Existing Instance CPython.interpreter.

Lemma market_prices_as_seller_witness :
  exists seller_prices,
    Seller.create_prices sample_priced_rows ["X"; "Z"] = Ok seller_prices
    /\ Forall2 (fun s m =>
                  Market.id m = Seller.price_offer_id s
                  /\ Py.int (VStr (Seller.price s))
                     = Ok (Market.value_ (Market.price m)))
               seller_prices
               [{| Market.id := "X";
                   Market.price := {| Market.value_ := 100;
                                      Market.currencyId := "RUR" |} |}].
Proof.
  exact (market_prices_as_seller sample_priced_rows ["X"; "Z"] _ eq_refl).
Defined.

End Examples.
